(** * AI-MCP-Server: the support workflow and its keyword search

    A shallow embedding of [src/mcp_server/server.py] (the four MCP tools
    over the two MySQL tables) and of [src/mcp_client/client.py] (the
    resolver / confirmation / escalation nodes and the chat loop), with the
    properties of the written specification stated over it.

    Conventions.
    - A Python [str] is a [string]; a character is read as the code point
      U+0000..U+00FF that its byte denotes.
    - A Python [int] is a [Z].
    - A dict that crosses the tool boundary is an association list of
      [JValue]s; [AgentState] is a record of optional fields.
    - Everything outside the two source files (console, clock, MCP
      transport, language model, SQL engine) is an explicit component of
      the state the code runs in. *)

From Stdlib Require Import Ascii String List ZArith NArith Lia Bool Arith.
From Stdlib Require Import Permutation Sorting.Sorted DecimalString DecimalN.
Import ListNotations.
Open Scope list_scope.
Open Scope string_scope.

Set Implicit Arguments.

(* ================================================================== *)
(** * Python string operations used by the source *)
(* ================================================================== *)

Module PyStr.

(** [str.isspace] on one character: TAB..CR, FS..US, SPACE, NEL, NBSP. *)
Definition isspace (c : ascii) : bool :=
  let n := nat_of_ascii c in
  (((9 <=? n) && (n <=? 13)) || ((28 <=? n) && (n <=? 32))
   || (n =? 133) || (n =? 160))%nat.

(** [str.lower] on one character: A..Z and the upper-case letters of
    U+00C0..U+00DE (the multiplication sign U+00D7 is not a letter). *)
Definition lower_char (c : ascii) : ascii :=
  let n := nat_of_ascii c in
  if (((65 <=? n) && (n <=? 90))
      || ((192 <=? n) && (n <=? 222) && negb (n =? 215)))%nat
  then ascii_of_nat (n + 32) else c.

Fixpoint lower (s : string) : string :=
  match s with
  | EmptyString => EmptyString
  | String c s' => String (lower_char c) (lower s')
  end.

Fixpoint lstrip (s : string) : string :=
  match s with
  | EmptyString => EmptyString
  | String c s' => if isspace c then lstrip s' else s
  end.

Fixpoint rstrip (s : string) : string :=
  match s with
  | EmptyString => EmptyString
  | String c s' =>
      match rstrip s' with
      | EmptyString => if isspace c then EmptyString else String c EmptyString
      | r => String c r
      end
  end.

(** [s.strip()] *)
Definition strip (s : string) : string := rstrip (lstrip s).

(** Truthiness of a [str]: the empty string is false. *)
Definition truthy (s : string) : bool :=
  match s with EmptyString => false | _ => true end.

(** [s.split()] with no separator: the maximal runs of non-whitespace
    characters, in order.  [cur] is the run being read. *)
Fixpoint split_from (cur : string) (s : string) : list string :=
  match s with
  | EmptyString => if truthy cur then [cur] else []
  | String c s' =>
      if isspace c
      then (if truthy cur then cur :: split_from EmptyString s'
            else split_from EmptyString s')
      else split_from (cur ++ String c EmptyString) s'
  end.

Definition split (s : string) : list string := split_from EmptyString s.

(** Every character of [s] passes the test [p]. *)
Fixpoint all_chars (p : ascii -> bool) (s : string) : bool :=
  match s with
  | EmptyString => true
  | String c s' => p c && all_chars p s'
  end.

(** [x in collection] for strings. *)
Definition mem (x : string) (l : list string) : bool :=
  existsb (String.eqb x) l.

(** [needle in hay] for two strings: [needle] is a substring of [hay]. *)
Definition Contains (needle hay : string) : Prop :=
  exists pre post, hay = pre ++ needle ++ post.

End PyStr.

(* ================================================================== *)
(** * Values and failures shared by the two processes *)
(* ================================================================== *)

(** JSON-shaped Python values: what a tool receives and returns. *)
#[warnings="-register-all"]
Inductive JValue : Type :=
| JNull
| JInt (z : Z)
| JStr (s : string)
| JList (l : list JValue)
| JDict (d : list (string * JValue)).

Definition PyDict : Type := list (string * JValue).

(** [d.get(k, default)] *)
Fixpoint dict_get (d : PyDict) (k : string) (default : JValue) : JValue :=
  match d with
  | [] => default
  | (k', v) :: d' => if String.eqb k k' then v else dict_get d' k default
  end.

(** [x or None] for a string [x]. *)
Definition or_None (x : string) : JValue :=
  if PyStr.truthy x then JStr x else JNull.

Definition opt_str (o : option string) : JValue :=
  match o with Some s => JStr s | None => JNull end.

(** The exceptions that the modelled code can meet.  Neither source file
    has a [try]/[except] around a node or a tool, so a raised exception
    always propagates to the caller. *)
Inductive Exn : Type :=
| EOFError                          (* console input exhausted *)
| AttributeError (what : string)    (* a method the object lacks *)
| TypeError (what : string)
| KeyError (key : string)
| ProgrammingError (msg : string)   (* SQL rejected by the engine *)
| IntegrityError (msg : string)     (* duplicate key on INSERT *)
| TransportError (msg : string)     (* MCP session or HTTP failure *)
| APIError (msg : string).          (* language-model call failure *)

Inductive Outcome (A : Type) : Type :=
| Ok (a : A)
| Raise (e : Exn).
Arguments Ok {A} a.
Arguments Raise {A} e.

(* ================================================================== *)
(** * The server: [src/mcp_server/server.py] *)
(* ================================================================== *)

Module Server.

Import PyStr.

(** Line 60. *)
Definition STOPWORDS : list string :=
  ["the"; "is"; "a"; "an"; "to"; "for"; "with"; "and"; "or"; "what";
   "do"; "i"; "my"; "on"; "how"; "of"].

(** Lines 73-77 and 115-119: the list comprehension
    [[k.strip().lower() for k in q.split()
      if k.strip() and k.strip().lower() not in STOPWORDS]]. *)
Fixpoint keywords_of (ks : list string) : list string :=
  match ks with
  | [] => []
  | k :: ks' =>
      if truthy (strip k) && negb (mem (lower (strip k)) STOPWORDS)
      then lower (strip k) :: keywords_of ks'
      else keywords_of ks'
  end.

Definition keywords (q : string) : list string := keywords_of (split q).

(** ** The SQL engine, as far as the two SELECTs and the INSERT use it *)

(** [subject LIKE pat] with the default escape character: [%] matches
    any run of characters, [_] any one character, a backslash makes the
    next pattern character literal, and a backslash that ends the
    pattern stands for itself.  Characters are compared exactly; the
    subject is lowered by the statement and the pattern by the caller. *)
Fixpoint like (pat : string) : string -> bool :=
  match pat with
  | EmptyString => fun s => negb (truthy s)
  | String c p =>
      if Ascii.eqb c "%" then
        fix many (s : string) : bool :=
          like p s
          || match s with EmptyString => false | String _ s' => many s' end
      else if Ascii.eqb c "_" then
        fun s => match s with
                 | EmptyString => false
                 | String _ s' => like p s'
                 end
      else if Ascii.eqb c "\" then
        match p with
        | EmptyString => fun s => String.eqb s (String c EmptyString)
        | String d p' =>
            fun s => match s with
                     | EmptyString => false
                     | String x s' => Ascii.eqb x d && like p' s'
                     end
        end
      else
        fun s => match s with
                 | EmptyString => false
                 | String x s' => Ascii.eqb x c && like p s'
                 end
  end.

(** A SELECT as the two search tools build it.  [where_clauses] is the
    Python list of that name: the clauses are joined by AND, and each
    clause is the parenthesised OR of [LOWER(short_description) LIKE %s],
    one per pattern bound in [params]; an empty list gives no WHERE.
    The statement always ends in ORDER BY <recency column> DESC LIMIT %s. *)
Record Select : Type := {
  where_clauses : list (list string);
  limit_param : Z
}.

(** Lines 68-95 and 111-137, up to the table and column names. *)
Definition build_select (short_description_contains : option string)
           (limit : Z) : Select :=
  let where_clauses :=
    match short_description_contains with
    | None => []
    | Some q =>
        if truthy q then
          let kws := keywords q in
          match kws with
          | [] => []
          | _ => [map (fun kw => "%" ++ kw ++ "%") kws]
          end
        else []
    end in
  {| where_clauses := where_clauses; limit_param := limit |}.

Section Table.

Variable Row : Type.
Variable short_description : Row -> string.
(** [newer_eq a b]: the ORDER BY column of [a] is not before that of
    [b]. *)
Variable newer_eq : Row -> Row -> bool.

Definition satisfies (clauses : list (list string)) (r : Row) : bool :=
  forallb (existsb (fun pat => like pat (lower (short_description r))))
          clauses.

(** ORDER BY ... DESC.  The engine does not fix the order of rows with
    equal keys; here they keep their order in the table. *)
Fixpoint insert_desc (r : Row) (l : list Row) : list Row :=
  match l with
  | [] => [r]
  | x :: l' => if newer_eq r x then r :: l else x :: insert_desc r l'
  end.

Fixpoint order_by_desc (l : list Row) : list Row :=
  match l with
  | [] => []
  | r :: l' => insert_desc r (order_by_desc l')
  end.

(** [cur.execute(sql, params); cur.fetchall()].  A negative LIMIT is a
    syntax error for the engine. *)
Definition execute_select (q : Select) (table : list Row)
  : Outcome (list Row) :=
  if (limit_param q <? 0)%Z
  then Raise (ProgrammingError "You have an error in your SQL syntax")
  else Ok (firstn (Z.to_nat (limit_param q))
                  (order_by_desc
                     (filter (satisfies (where_clauses q)) table))).

End Table.

(** ** The two tables *)

(** A row of [knowledge_base.knowledge_base], with the columns the
    SELECT names.  The schema is not part of the sources: columns are
    text, and a timestamp column orders as its text does (timestamps of
    one format order as the instants they denote). *)
Record KBRow : Type := {
  kb_number : string;
  kb_version : string;
  kb_short_description : string;
  kb_author : string;
  kb_category : string;
  kb_workflow : string;
  kb_updated : string
}.

(** [Literal["New", "In Progress", "On Hold", "Closed"]] *)
Inductive IncidentState : Type := New | InProgress | OnHold | Closed.

Definition state_text (s : IncidentState) : string :=
  match s with
  | New => "New"
  | InProgress => "In Progress"
  | OnHold => "On Hold"
  | Closed => "Closed"
  end.

(** A row of [incident.incidents]. *)
Record IncidentRow : Type := {
  inc_number : string;
  inc_opened : string;
  inc_short_description : string;
  inc_description : string;
  inc_resolution_code : option string;
  inc_resolution_notes : option string;
  inc_state : IncidentState;
  inc_assigned_to : option string
}.

Record DB : Type := {
  knowledge_base : list KBRow;
  incidents : list IncidentRow
}.

Definition kb_newer_eq (a b : KBRow) : bool :=
  String.leb (kb_updated b) (kb_updated a).

Definition inc_newer_eq (a b : IncidentRow) : bool :=
  String.leb (inc_opened b) (inc_opened a).

(** [dict(row)] for a row fetched through a [DictCursor]. *)
Definition kb_dict (r : KBRow) : PyDict :=
  [("number", JStr (kb_number r)); ("version", JStr (kb_version r));
   ("short_description", JStr (kb_short_description r));
   ("author", JStr (kb_author r)); ("category", JStr (kb_category r));
   ("workflow", JStr (kb_workflow r)); ("updated", JStr (kb_updated r))].

Definition inc_dict (r : IncidentRow) : PyDict :=
  [("number", JStr (inc_number r)); ("opened", JStr (inc_opened r));
   ("short_description", JStr (inc_short_description r));
   ("description", JStr (inc_description r));
   ("resolution_code", opt_str (inc_resolution_code r));
   ("resolution_notes", opt_str (inc_resolution_notes r));
   ("state", JStr (state_text (inc_state r)));
   ("assigned_to", opt_str (inc_assigned_to r))].

(** ** The tools *)

(** The rows a search selects, before [dict(row)]. *)
Definition kb_rows (short_description_contains : option string)
           (limit : Z) (db : DB) : Outcome (list KBRow) :=
  execute_select kb_short_description kb_newer_eq
                 (build_select short_description_contains limit)
                 (knowledge_base db).

Definition incident_rows (short_description_contains : option string)
           (limit : Z) (db : DB) : Outcome (list IncidentRow) :=
  execute_select inc_short_description inc_newer_eq
                 (build_select short_description_contains limit)
                 (incidents db).

(** Lines 65-102. *)
Definition search_knowledge_base (short_description_contains : option string)
           (limit : Z) (db : DB) : Outcome (list PyDict) :=
  match kb_rows short_description_contains limit db with
  | Ok rows => Ok (map kb_dict rows)
  | Raise e => Raise e
  end.

(** Lines 108-144. *)
Definition search_incidents (short_description_contains : option string)
           (limit : Z) (db : DB) : Outcome (list PyDict) :=
  match incident_rows short_description_contains limit db with
  | Ok rows => Ok (map inc_dict rows)
  | Raise e => Raise e
  end.

Definition has_number (n : string) (rows : list IncidentRow) : bool :=
  existsb (fun r => String.eqb (inc_number r) n) rows.

(** Modelled from the spec: the key of [incident.incidents], whose schema
    is not part of the sources.  "Fails with DuplicateKeyError if number
    already exists"; "no partial-write state is observable on failure".
    An INSERT of a fresh number appends the row. *)
Definition insert_incident (r : IncidentRow) (db : DB) : Outcome unit * DB :=
  if has_number (inc_number r) (incidents db)
  then (Raise (IntegrityError "Duplicate entry for key number"), db)
  else (Ok tt, {| knowledge_base := knowledge_base db;
                  incidents := (incidents db ++ [r])%list |}).

(** Lines 150-171.  The INSERT names six columns; the two resolution
    columns take their default, NULL. *)
Definition create_incident
           (number opened short_description description : string)
           (state : IncidentState) (assigned_to : option string) (db : DB)
  : Outcome PyDict * DB :=
  let row := {| inc_number := number;
                inc_opened := opened;
                inc_short_description := short_description;
                inc_description := description;
                inc_resolution_code := None;
                inc_resolution_notes := None;
                inc_state := state;
                inc_assigned_to := assigned_to |} in
  match insert_incident row db with
  | (Ok _, db') =>
      (Ok [("status", JStr "success"); ("number", JStr number)], db')
  | (Raise e, db') => (Raise e, db')
  end.

Definition or_empty (l : option (list string)) : JValue :=
  match l with
  | Some (_ :: _ as xs) => JList (map JStr xs)
  | _ => JList []
  end.

(** Lines 177-211; [uuid4] is the fresh identifier the call draws. *)
Definition email_send_mock (to : list string) (subject body : string)
           (cc bcc : option (list string)) (uuid4 : string) : PyDict :=
  let message_id := "MOCK-" ++ uuid4 in
  [("status", JStr "ok");
   ("message_id", JStr message_id);
   ("sent", JDict [("to", JList (map JStr to));
                   ("cc", or_empty cc);
                   ("bcc", or_empty bcc);
                   ("subject", JStr subject);
                   ("body", JStr body)]);
   ("note", JStr "Mock email only - no actual message sent.")].

End Server.

(* ================================================================== *)
(** * The client: [src/mcp_client/client.py] *)
(* ================================================================== *)

Module Client.

Import PyStr.

(** ** [datetime] *)

Record DateTime : Type := {
  year : N; month : N; day : N;
  hour : N; minute : N; second : N;
  microsecond : N
}.

Definition digits (n : N) : string := NilEmpty.string_of_uint (N.to_uint n).

Fixpoint zeros (k : nat) : string :=
  match k with O => EmptyString | S k' => String "0" (zeros k') end.

(** Decimal text of [n], zero-padded on the left to [width] characters. *)
Definition zfill (width : nat) (n : N) : string :=
  zeros (width - String.length (digits n)) ++ digits n.

(** [d.strftime('%Y%m%d%H%M%S')]; the year has the four digits that a
    present-day clock gives it. *)
Definition strftime_YmdHMS (d : DateTime) : string :=
  zfill 4 (year d) ++ zfill 2 (month d) ++ zfill 2 (day d)
  ++ zfill 2 (hour d) ++ zfill 2 (minute d) ++ zfill 2 (second d).

(** [d.isoformat()]: the fraction is printed only when it is not zero. *)
Definition isoformat (d : DateTime) : string :=
  zfill 4 (year d) ++ "-" ++ zfill 2 (month d) ++ "-" ++ zfill 2 (day d)
  ++ "T" ++ zfill 2 (hour d) ++ ":" ++ zfill 2 (minute d)
  ++ ":" ++ zfill 2 (second d)
  ++ (if (microsecond d =? 0)%N then EmptyString
      else "." ++ zfill 6 (microsecond d)).

(** Line 147: [f"INC{t.strftime('%Y%m%d%H%M%S')}"]. *)
Definition make_incident_number (t : DateTime) : string :=
  "INC" ++ strftime_YmdHMS t.

(** ** The world the client runs in *)

(** One [client.call_tool_mcp(name, arguments)]. *)
Record ToolCall : Type := {
  tool : string;
  arguments : PyDict
}.

(** What [call_tool_mcp] returns: the raw protocol result.  A tool that
    failed on the server comes back as a result with [isError] set; the
    call itself raises only when the session or the transport fails. *)
Record CallToolResult : Type := {
  isError : bool;
  structuredContent : option PyDict
}.

(** What reaches the user's terminal. *)
Inductive Output : Type :=
| Asked (prompt : string)            (* [Prompt.ask] *)
| Printed (text : string)            (* [console.print(str)] *)
| Panel (text : string)              (* [console.print(Panel(..))] *)
| Table (title : string) (rows : list (list JValue)).

(** The f-string of lines 97-108, by its three holes. *)
Record ReasoningPrompt : Type := {
  prompt_issue : string;
  prompt_kb : JValue;
  prompt_incidents : JValue
}.

Record World : Type := {
  (** what the successive [Prompt.ask] calls will return *)
  answers : list string;
  (** what the successive [datetime.datetime.now()] calls will return *)
  clock : nat -> DateTime;
  reads : nat;
  (** how the [n]-th tool call ends, and the calls made so far *)
  mcp : nat -> ToolCall -> Outcome CallToolResult;
  calls : list ToolCall;
  (** [generate_content(..).text], or the failure of the call *)
  gemini : ReasoningPrompt -> Outcome (option string);
  (** the terminal, oldest line first *)
  console : list Output
}.

Definition set_answers (w : World) (a : list string) : World :=
  {| answers := a; clock := clock w; reads := reads w; mcp := mcp w;
     calls := calls w; gemini := gemini w; console := console w |}.

Definition set_reads (w : World) (n : nat) : World :=
  {| answers := answers w; clock := clock w; reads := n; mcp := mcp w;
     calls := calls w; gemini := gemini w; console := console w |}.

Definition set_calls (w : World) (c : list ToolCall) : World :=
  {| answers := answers w; clock := clock w; reads := reads w; mcp := mcp w;
     calls := c; gemini := gemini w; console := console w |}.

Definition set_console (w : World) (o : list Output) : World :=
  {| answers := answers w; clock := clock w; reads := reads w; mcp := mcp w;
     calls := calls w; gemini := gemini w; console := o |}.

(** ** Computations: state passing with exceptions *)

Definition M (A : Type) : Type := World -> Outcome A * World.

Definition ret {A} (a : A) : M A := fun w => (Ok a, w).

Definition raise {A} (e : Exn) : M A := fun w => (Raise e, w).

Definition bind {A B} (m : M A) (k : A -> M B) : M B :=
  fun w => match m w with
           | (Ok a, w') => k a w'
           | (Raise e, w') => (Raise e, w')
           end.

Declare Scope py_scope.
Delimit Scope py_scope with py.
Notation "x <- m ;; k" := (bind m (fun x => k))
  (at level 61, m at next level, right associativity) : py_scope.
Notation "m ;; k" := (bind m (fun _ => k))
  (at level 61, right associativity) : py_scope.
Open Scope py_scope.

Definition lift {A} (o : Outcome A) : M A := fun w => (o, w).

(** [console.print(..)] *)
Definition console_print (o : Output) : M unit :=
  fun w => (Ok tt, set_console w (console w ++ [o])%list).

(** [Prompt.ask(prompt, ..)]: shows the prompt and returns the user's
    answer, as the console library delivers it (after its own handling
    of [choices] and [default]); [EOFError] when input has ended. *)
Definition Prompt_ask (prompt : string) : M string :=
  fun w =>
    let w1 := set_console w (console w ++ [Asked prompt])%list in
    match answers w1 with
    | [] => (Raise EOFError, w1)
    | a :: rest => (Ok a, set_answers w1 rest)
    end.

(** [datetime.datetime.now()] *)
Definition now : M DateTime :=
  fun w => (Ok (clock w (reads w)), set_reads w (S (reads w))).

(** [await client.call_tool_mcp(name, arguments)] *)
Definition call_tool_mcp (name : string) (args : PyDict) : M CallToolResult :=
  fun w =>
    let c := {| tool := name; arguments := args |} in
    (mcp w (List.length (calls w)) c, set_calls w (calls w ++ [c])%list).

(** [gemini.models.generate_content(model=.., contents=[prompt])] *)
Definition generate_content (p : ReasoningPrompt) : M (option string) :=
  fun w => (gemini w p, w).

(** ** The agent state (lines 29-36) *)

(** A key that the dict does not hold reads as [None] through [.get]. *)
Record AgentState : Type := {
  user_query : string;
  kb_results : option JValue;
  incident_results : option JValue;
  user_feedback : option string;
  user_create_incident : option string;
  incident_number : option string;
  final_response : option string
}.

(** [AgentState(user_query=q)] *)
Definition initial_state (q : string) : AgentState :=
  {| user_query := q; kb_results := None; incident_results := None;
     user_feedback := None; user_create_incident := None;
     incident_number := None; final_response := None |}.

(** [state.get(key) == text] *)
Definition get_eq (field : option string) (text : string) : bool :=
  match field with
  | Some s => String.eqb s text
  | None => false
  end.

Definition newline : string := String (ascii_of_nat 10) EmptyString.

(** ** Resolver node (lines 41-122) *)

(** [r.structuredContent.get("result", []) if hasattr(r, "structuredContent")
    else []]: the attribute is a declared field of the result, so the
    test holds; on a result without structured content the [.get] is
    applied to [None]. *)
Definition result_of (r : CallToolResult) : Outcome JValue :=
  match structuredContent r with
  | Some d => Ok (dict_get d "result" (JList []))
  | None => Raise (AttributeError "'NoneType' object has no attribute 'get'")
  end.

Definition falsy (v : JValue) : bool :=
  match v with
  | JNull | JInt 0 | JStr EmptyString | JList [] | JDict [] => true
  | _ => false
  end.

(** One [add_row] per record: [rec.get(column, default)] for each column. *)
Fixpoint rows_of (columns : list (string * string)) (items : list JValue)
  : Outcome (list (list JValue)) :=
  match items with
  | [] => Ok []
  | JDict d :: items' =>
      match rows_of columns items' with
      | Ok rows =>
          Ok (map (fun c => dict_get d (fst c) (JStr (snd c))) columns :: rows)
      | Raise e => Raise e
      end
  | _ :: _ => Raise (AttributeError "object has no attribute 'get'")
  end.

(** The [if data: for rec in data: .. else: ..] of lines 65-74 and 84-92. *)
Definition table_rows (columns : list (string * string))
           (placeholder : list JValue) (data : JValue)
  : Outcome (list (list JValue)) :=
  if falsy data then Ok [placeholder]
  else match data with
       | JList items => rows_of columns items
       | JInt _ => Raise (TypeError "'int' object is not iterable")
       | _ => Raise (AttributeError "'str' object has no attribute 'get'")
       end.

Definition resolver_node (state : AgentState) : M AgentState :=
  console_print (Printed "Searching knowledge base and incidents...") ;;
  kb_results <- call_tool_mcp "search_knowledge_base"
                  [("short_description_contains", JStr (user_query state));
                   ("limit", JInt 5)] ;;
  incident_results <- call_tool_mcp "search_incidents"
                  [("short_description_contains", JStr (user_query state));
                   ("limit", JInt 5)] ;;
  kb_data <- lift (result_of kb_results) ;;
  inc_data <- lift (result_of incident_results) ;;
  kb_table <- lift (table_rows
                      [("number", "N/A");
                       ("short_description", "No description");
                       ("category", "Unknown"); ("author", "N/A")]
                      [JStr "-"; JStr "No KB articles found"; JStr "-";
                       JStr "-"]
                      kb_data) ;;
  console_print (Table "Knowledge Base Results" kb_table) ;;
  inc_table <- lift (table_rows
                       [("number", "N/A");
                        ("short_description", "No description");
                        ("state", "Unknown")]
                       [JStr "-"; JStr "No incidents found"; JStr "-"]
                       inc_data) ;;
  console_print (Table "Related Incidents" inc_table) ;;
  summary <- generate_content {| prompt_issue := user_query state;
                                 prompt_kb := kb_data;
                                 prompt_incidents := inc_data |} ;;
  text <- match summary with
          | Some t => ret (strip t)
          | None => raise (AttributeError
                             "'NoneType' object has no attribute 'strip'")
          end ;;
  console_print (Panel ("Suggested Fix:" ++ newline ++ newline ++ text)) ;;
  ret {| user_query := user_query state;
         kb_results := Some kb_data;
         incident_results := Some inc_data;
         user_feedback := user_feedback state;
         user_create_incident := user_create_incident state;
         incident_number := incident_number state;
         final_response := Some text |}.

(** ** Confirmation node (lines 128-134) *)

Definition confirmation_node (state : AgentState) : M AgentState :=
  feedback <- Prompt_ask "Did this solution resolve your issue?" ;;
  if String.eqb feedback "no" then
    create_incident <- Prompt_ask "Would you like to create an incident?" ;;
    ret {| user_query := user_query state;
           kb_results := kb_results state;
           incident_results := incident_results state;
           user_feedback := Some feedback;
           user_create_incident := Some create_incident;
           incident_number := incident_number state;
           final_response := final_response state |}
  else
    ret {| user_query := user_query state;
           kb_results := kb_results state;
           incident_results := incident_results state;
           user_feedback := Some feedback;
           user_create_incident := Some "no";
           incident_number := incident_number state;
           final_response := final_response state |}.

(** ** Escalation node (lines 140-179) *)

(** [{**state, "final_response": text}] *)
Definition with_final_response (state : AgentState) (text : string)
  : AgentState :=
  {| user_query := user_query state;
     kb_results := kb_results state;
     incident_results := incident_results state;
     user_feedback := user_feedback state;
     user_create_incident := user_create_incident state;
     incident_number := incident_number state;
     final_response := Some text |}.

(** The arguments of the [create_incident] call, lines 154-161. *)
Definition create_incident_args
           (incident_number opened short_description description
            assigned_to : string) : PyDict :=
  [("number", JStr incident_number);
   ("opened", JStr opened);
   ("short_description", JStr short_description);
   ("description", JStr description);
   ("state", JStr "New");
   ("assigned_to", or_None assigned_to)].

(** The arguments of the [email_send_mock] call, lines 166-170. *)
Definition email_args (incident_number short_description description : string)
  : PyDict :=
  [("to", JList [JStr "support@example.com"]);
   ("subject", JStr ("New Incident " ++ incident_number));
   ("body", JStr ("Issue reported: " ++ short_description
                  ++ newline ++ newline ++ description))].

Definition escalation_node (state : AgentState) : M AgentState :=
  if get_eq (user_feedback state) "no"
     && get_eq (user_create_incident state) "yes"
  then
    console_print (Panel "Please provide incident details below") ;;
    short_description <- Prompt_ask "Short description of the issue" ;;
    description <- Prompt_ask "Detailed description of what happened" ;;
    assigned_to <- Prompt_ask "Assign to (optional)" ;;
    t1 <- now ;;
    let incident_number := make_incident_number t1 in
    t2 <- now ;;
    let opened := isoformat t2 in
    console_print (Printed "Creating your incident... please wait...") ;;
    call_tool_mcp "create_incident"
      (create_incident_args incident_number opened short_description
                            description assigned_to) ;;
    call_tool_mcp "email_send_mock"
      (email_args incident_number short_description description) ;;
    console_print
      (Panel ("Incident " ++ incident_number
              ++ " created successfully and notification sent to support.")) ;;
    ret {| user_query := user_query state;
           kb_results := kb_results state;
           incident_results := incident_results state;
           user_feedback := user_feedback state;
           user_create_incident := user_create_incident state;
           incident_number := Some incident_number;
           final_response :=
             Some ("Incident " ++ incident_number ++ " created.") |}
  else if get_eq (user_feedback state) "no" then
    ret (with_final_response state
           "No incident created. Issue remains unresolved.")
  else
    ret (with_final_response state "Glad it helped! No escalation needed.").

(** ** The workflow (lines 185-194): resolver, confirmation, escalation *)

Definition ainvoke (state : AgentState) : M AgentState :=
  s1 <- resolver_node state ;;
  s2 <- confirmation_node s1 ;;
  escalation_node s2.

(** ** The chat loop (lines 200-214) *)

Definition separator : string :=
  newline ++ "------------------------------------------------------------"
          ++ newline.

(** One pass through the body of [while True].  [true] stands for
    [break], [false] for falling through to the next iteration. *)
Definition iteration : M bool :=
  user_query <- Prompt_ask "Describe your IT issue" ;;
  if mem (lower user_query) ["exit"; "quit"] then
    console_print (Printed "Exiting chat...") ;;
    ret true
  else
    let state := initial_state user_query in
    console_print (Printed "Running agent...") ;;
    final_state <- ainvoke state ;;
    text <- match final_response final_state with
            | Some t => ret t
            | None => raise (KeyError "final_response")
            end ;;
    console_print (Panel text) ;;
    console_print (Printed separator) ;;
    ret false.

(** [while True: ..], unrolled at most [fuel] times; [None] when the
    loop is still running after that many iterations. *)
Fixpoint loop (fuel : nat) (w : World) : option (Outcome unit * World) :=
  match fuel with
  | O => None
  | S fuel' =>
      match iteration w with
      | (Ok true, w') => Some (Ok tt, w')
      | (Ok false, w') => loop fuel' w'
      | (Raise e, w') => Some (Raise e, w')
      end
  end.

Definition main (fuel : nat) (w : World) : option (Outcome unit * World) :=
  match console_print
          (Panel ("AI Incident Assistant Ready" ++ newline
                  ++ "Type 'exit' to quit.")) w with
  | (_, w') => loop fuel w'
  end.

End Client.

(* ================================================================== *)
(** * The vocabulary of the specification *)
(* ================================================================== *)

Module Spec.

Import PyStr.

(** A query "consisting only of stopwords or whitespace": stopwords of
    the fixed set, each ended by a whitespace character or by the end of
    the text, with any further whitespace around them. *)
Inductive OnlyStopwords : string -> Prop :=
| only_nothing : OnlyStopwords EmptyString
| only_space c q :
    isspace c = true -> OnlyStopwords q -> OnlyStopwords (String c q)
| only_last_word w :
    In w Server.STOPWORDS -> OnlyStopwords w
| only_word w c q :
    In w Server.STOPWORDS -> isspace c = true -> OnlyStopwords q ->
    OnlyStopwords (w ++ String c q).

(** A word that [split] returns whole and the comprehension of
    [keywords_of] leaves out. *)
Definition dropped (w : string) : bool :=
  all_chars (fun c => negb (isspace c)) w
  && truthy w
  && negb (truthy (strip w) && negb (mem (lower (strip w)) Server.STOPWORDS)).

(** [result] is "the [n] most recent records" of [table]: it is [table]
    with some [rest] taken away, has [n] rows (all of them when the table
    is shorter), lists them most recent first, and nothing left in
    [rest] is more recent than a row it holds. *)
Definition MostRecent {Row : Type} (newer_eq : Row -> Row -> bool)
           (n : nat) (table result : list Row) : Prop :=
  exists rest,
    Permutation table (result ++ rest)%list
    /\ List.length result = Nat.min n (List.length table)
    /\ StronglySorted (fun a b => newer_eq a b = true) result
    /\ (forall a b, In a result -> In b rest -> newer_eq a b = true).

(** The three outcomes of the Escalate step. *)
Inductive Branch : Type := CreateIncident | Unresolved | Resolved.

(** Escalate's branch, in the specification's priority order:
    1. feedback is no and create-incident is yes; 2. feedback is no;
    3. otherwise. *)
Definition branch_of (user_feedback user_create_incident : option string)
  : Branch :=
  match user_feedback, user_create_incident with
  | Some fb, Some ci =>
      if String.eqb fb "no" then
        if String.eqb ci "yes" then CreateIncident else Unresolved
      else Resolved
  | Some fb, None => if String.eqb fb "no" then Unresolved else Resolved
  | None, _ => Resolved
  end.

(** Two instants "within the same clock second". *)
Definition same_second (a b : Client.DateTime) : Prop :=
  Client.year a = Client.year b /\ Client.month a = Client.month b
  /\ Client.day a = Client.day b /\ Client.hour a = Client.hour b
  /\ Client.minute a = Client.minute b /\ Client.second a = Client.second b.

(** The number and the opened field "encode the same instant": some one
    instant formats to both. *)
Definition same_instant (number opened : string) : Prop :=
  exists t,
    number = Client.make_incident_number t
    /\ opened = Client.isoformat t.

(** A record "matches if any token appears" in its description, by the
    pattern [%token%] on the lowered text; a query without tokens, or no
    query, leaves every record a candidate. *)
Definition wanted (q : option string) (description : string) : bool :=
  match q with
  | None => true
  | Some s =>
      match Server.keywords s with
      | [] => true
      | kws => existsb (fun kw => Server.like ("%" ++ kw ++ "%")
                                              (lower description)) kws
      end
  end.

(** The test of the comprehension that keeps a word as a token. *)
Definition non_stopword (k : string) : bool :=
  negb (mem k Server.STOPWORDS).

Definition no_space (c : ascii) : bool := negb (isspace c).


(** The field ranges of a [datetime], for years of four digits. *)
Definition valid_datetime (t : Client.DateTime) : Prop :=
  (1000 <= Client.year t <= 9999)%N /\ (1 <= Client.month t <= 12)%N
  /\ (1 <= Client.day t <= 31)%N /\ (Client.hour t <= 23)%N
  /\ (Client.minute t <= 59)%N /\ (Client.second t <= 59)%N
  /\ (Client.microsecond t <= 999999)%N.

Definition is_digit (c : ascii) : bool :=
  ((48 <=? nat_of_ascii c) && (nat_of_ascii c <=? 57))%nat.

(** The number that a decimal text denotes, leading zeros allowed. *)
Definition number_of_text (s : string) : option N :=
  option_map N.of_uint (NilEmpty.uint_of_string s).

(** [n] fills a field of [width] characters exactly, with digits. *)
Definition fills (width : nat) (n : N) : bool :=
  (String.length (Client.zfill width n) =? width)%nat
  && all_chars is_digit (Client.zfill width n).

End Spec.

(* ================================================================== *)
(** * The incident-creating branch, step by step *)
(* ================================================================== *)

(** The calls, the terminal lines and the world that the first branch of
    [escalation_node] goes through, named so that statements about it stay
    readable.  [escalation_create_closed_form] below proves that the node
    does exactly this. *)
Module Trace.

Import Client.

Definition create_call (w : World) (sd d a : string) : ToolCall :=
  {| tool := "create_incident";
     arguments :=
       create_incident_args (make_incident_number (clock w (reads w)))
                            (isoformat (clock w (S (reads w)))) sd d a |}.

Definition email_call (w : World) (sd d : string) : ToolCall :=
  {| tool := "email_send_mock";
     arguments := email_args (make_incident_number (clock w (reads w))) sd d |}.

Definition dialogue : list Output :=
  [Panel "Please provide incident details below";
   Asked "Short description of the issue";
   Asked "Detailed description of what happened";
   Asked "Assign to (optional)";
   Printed "Creating your incident... please wait..."].

Definition success_panel (w : World) : Output :=
  Panel ("Incident " ++ make_incident_number (clock w (reads w))
         ++ " created successfully and notification sent to support.").

(** The world after three answers, two clock reads, the calls [cs] and
    the terminal lines [out]. *)
Definition after (w : World) (rest : list string) (cs : list ToolCall)
           (out : list Output) : World :=
  {| answers := rest; clock := clock w; reads := S (S (reads w));
     mcp := mcp w; calls := (calls w ++ cs)%list; gemini := gemini w;
     console := (console w ++ out)%list |}.

Definition created (st : AgentState) (w : World) : AgentState :=
  {| user_query := user_query st;
     kb_results := kb_results st;
     incident_results := incident_results st;
     user_feedback := user_feedback st;
     user_create_incident := user_create_incident st;
     incident_number := Some (make_incident_number (clock w (reads w)));
     final_response :=
       Some ("Incident " ++ make_incident_number (clock w (reads w))
             ++ " created.") |}.

(** The world in which a run for the query just read starts: the prompt
    and the "Running agent..." line are on the terminal. *)
Definition running (w : World) (rest : list string) : World :=
  {| answers := rest; clock := clock w; reads := reads w; mcp := mcp w;
     calls := calls w; gemini := gemini w;
     console := (console w ++ [Asked "Describe your IT issue";
                               Printed "Running agent..."])%list |}.

(** A computation that reads answers but never puts one back. *)
Definition consumes {A : Type} (m : M A) : Prop :=
  forall w,
    (List.length (answers (snd (m w))) <= List.length (answers w))%nat.

(** The world after the banner of [main]. *)
Definition greeted (w : World) : World :=
  {| answers := answers w; clock := clock w; reads := reads w; mcp := mcp w;
     calls := calls w; gemini := gemini w;
     console := (console w ++ [Panel ("AI Incident Assistant Ready" ++ newline
                                      ++ "Type 'exit' to quit.")])%list |}.

(** [st'] differs from [st] at most in [final_response]. *)
Definition keeps_rest (st st' : AgentState) : Prop :=
  user_query st' = user_query st
  /\ kb_results st' = kb_results st
  /\ incident_results st' = incident_results st
  /\ user_feedback st' = user_feedback st
  /\ user_create_incident st' = user_create_incident st
  /\ incident_number st' = incident_number st.

(** The two calls of the resolver node, lines 45-52. *)
Definition search_args (q : string) : PyDict :=
  [("short_description_contains", JStr q); ("limit", JInt 5)].

Definition kb_search_call (q : string) : ToolCall :=
  {| tool := "search_knowledge_base"; arguments := search_args q |}.

Definition incident_search_call (q : string) : ToolCall :=
  {| tool := "search_incidents"; arguments := search_args q |}.

Definition searching : Output :=
  Printed "Searching knowledge base and incidents...".

(** The state after the confirmation node heard [fb] and [ci]. *)
Definition answered (st : AgentState) (fb ci : string) : AgentState :=
  {| user_query := user_query st;
     kb_results := kb_results st;
     incident_results := incident_results st;
     user_feedback := Some fb;
     user_create_incident := Some ci;
     incident_number := incident_number st;
     final_response := final_response st |}.

(** The world with [rest] still to be read and [out] added to the
    terminal; nothing else has moved. *)
Definition heard (w : World) (rest : list string) (out : list Output)
  : World :=
  {| answers := rest; clock := clock w; reads := reads w; mcp := mcp w;
     calls := calls w; gemini := gemini w;
     console := (console w ++ out)%list |}.

Definition resolved_question : Output :=
  Asked "Did this solution resolve your issue?".

Definition incident_question : Output :=
  Asked "Would you like to create an incident?".

(** The world after [main] has shown a run's final response. *)
Definition shown (w : World) (text : string) : World :=
  {| answers := answers w; clock := clock w; reads := reads w; mcp := mcp w;
     calls := calls w; gemini := gemini w;
     console := (console w ++ [Panel text; Printed separator])%list |}.

End Trace.

(* ================================================================== *)
(** * Concrete stores and sessions *)
(* ================================================================== *)

Module Scenario.

Import Server.

Definition kb_vpn : KBRow :=
  {| kb_number := "KB0001"; kb_version := "1.0";
     kb_short_description := "VPN connection troubleshooting";
     kb_author := "admin"; kb_category := "Network";
     kb_workflow := "Published"; kb_updated := "2024-01-01 09:00:00" |}.

Definition kb_temp : KBRow :=
  {| kb_number := "KB0002"; kb_version := "1.0";
     kb_short_description := "Cannot write to C:\temp";
     kb_author := "admin"; kb_category := "Storage";
     kb_workflow := "Published"; kb_updated := "2024-02-01 09:00:00" |}.

Definition kb_mail : KBRow :=
  {| kb_number := "KB0003"; kb_version := "2.1";
     kb_short_description := "Mailbox quota exceeded";
     kb_author := "ops"; kb_category := "Mail";
     kb_workflow := "Published"; kb_updated := "2024-03-01 09:00:00" |}.

Definition db0 : DB :=
  {| knowledge_base := [kb_vpn; kb_temp; kb_mail]; incidents := [] |}.

(** A store holding the single article about the temp directory. *)
Definition db_temp : DB :=
  {| knowledge_base := [kb_temp]; incidents := [] |}.

Import Client.

(** Two clock reads that straddle a second: 12:00:00.999999, and
    12:00:01.000001 from then on. *)
Definition just_before : DateTime :=
  {| year := 2024; month := 1; day := 1; hour := 12; minute := 0;
     second := 0; microsecond := 999999 |}.

Definition just_after : DateTime :=
  {| year := 2024; month := 1; day := 1; hour := 12; minute := 0;
     second := 1; microsecond := 1 |}.

(** Another instant of the second 12:00:00. *)
Definition same_second_earlier : DateTime :=
  {| year := 2024; month := 1; day := 1; hour := 12; minute := 0;
     second := 0; microsecond := 5 |}.

Definition clock_straddling (n : nat) : DateTime :=
  match n with O => just_before | S _ => just_after end.

Definition structured (d : PyDict) : CallToolResult :=
  {| isError := false; structuredContent := Some d |}.

(** A server that is up, with nothing to report for a search. *)
Definition mcp_up (n : nat) (c : ToolCall) : Outcome CallToolResult :=
  if String.eqb (tool c) "create_incident" then
    Ok (structured [("status", JStr "success");
                    ("number", dict_get (arguments c) "number" JNull)])
  else if String.eqb (tool c) "email_send_mock" then
    Ok (structured [("status", JStr "ok")])
  else Ok (structured [("result", JList [])]).

(** The same server when the notification call cannot be delivered. *)
Definition mcp_mail_down (n : nat) (c : ToolCall) : Outcome CallToolResult :=
  if String.eqb (tool c) "email_send_mock"
  then Raise (TransportError "Connection closed")
  else mcp_up n c.

(** No server at all. *)
Definition mcp_down (n : nat) (c : ToolCall) : Outcome CallToolResult :=
  Raise (TransportError "All connection attempts failed").

Definition gemini_up (p : ReasoningPrompt) : Outcome (option string) :=
  Ok (Some " Restart the VPN client. ").

Definition world (input : list string)
           (server : nat -> ToolCall -> Outcome CallToolResult) : World :=
  {| answers := input; clock := clock_straddling; reads := 0;
     mcp := server; calls := []; gemini := gemini_up; console := [] |}.

(** A state as the confirmation node leaves it after "no", "yes". *)
Definition unresolved_wants_incident : AgentState :=
  {| user_query := "vpn not connecting";
     kb_results := Some (JList []); incident_results := Some (JList []);
     user_feedback := Some "no"; user_create_incident := Some "yes";
     incident_number := None;
     final_response := Some "Restart the VPN client." |}.

Definition incident_details : list string :=
  ["VPN down"; "Cannot connect since 9am"; ""].

(** A session of two questions and then "exit". *)
Definition two_questions : list string :=
  ["vpn not connecting"; "yes"; "printer jam"; "yes"; "exit"].

(** A server that answers two calls and is unreachable from the third
    on: the first run of a session gets its searches, the second does
    not. *)
Definition mcp_up_then_down (n : nat) (c : ToolCall)
  : Outcome CallToolResult :=
  if (n <? 2)%nat then mcp_up n c else mcp_down n c.

(** The world in which the second iteration of the session
    [two_questions] starts, on that server. *)
Definition after_first_run : World :=
  snd (iteration (Trace.greeted (world two_questions mcp_up_then_down))).

(** A server whose tools fail: every call comes back as an error result
    without structured content. *)
Definition mcp_tool_errors (n : nat) (c : ToolCall) : Outcome CallToolResult :=
  Ok {| isError := true; structuredContent := None |}.

(** A server that finds the VPN article and one earlier incident. *)
Definition mcp_finds (n : nat) (c : ToolCall) : Outcome CallToolResult :=
  if String.eqb (tool c) "search_knowledge_base" then
    Ok (structured [("result", JList [JDict (kb_dict kb_vpn)])])
  else mcp_up n c.

Definition kb_columns : list (string * string) :=
  [("number", "N/A"); ("short_description", "No description");
   ("category", "Unknown"); ("author", "N/A")].

End Scenario.

(* ================================================================== *)
(** * Properties of the server *)
(* ================================================================== *)

Unset Implicit Arguments.

Module StrFacts.

Import PyStr.

Lemma append_empty_r (s : string) : s ++ EmptyString = s.
Proof. induction s as [|c s IH]; simpl; [reflexivity | now rewrite IH]. Qed.

Lemma append_assoc (a b c : string) : (a ++ b) ++ c = a ++ (b ++ c).
Proof. induction a as [|x a IH]; simpl; [reflexivity | now rewrite IH]. Qed.

Lemma truthy_append_r (a : string) (c : ascii) (b : string) :
  truthy (a ++ String c b) = true.
Proof. destruct a; reflexivity. Qed.

(** A run of non-whitespace characters is read into the current word. *)
Lemma split_from_word (w : string) :
  forall cur s,
    all_chars (fun c => negb (isspace c)) w = true ->
    split_from cur (w ++ s) = split_from (cur ++ w) s.
Proof.
  induction w as [|c w IH]; intros cur s Hw; simpl in *.
  - now rewrite append_empty_r.
  - apply andb_prop in Hw as [Hc Hw].
    apply negb_true_iff in Hc. rewrite Hc.
    rewrite IH by assumption.
    now rewrite append_assoc.
Qed.

Lemma stopwords_dropped (w : string) :
  In w Server.STOPWORDS -> Spec.dropped w = true.
Proof.
  assert (H : forallb Spec.dropped Server.STOPWORDS = true)
    by (vm_compute; reflexivity).
  rewrite forallb_forall in H. exact (H w).
Qed.

Lemma keywords_of_stopword (w : string) (ks : list string) :
  In w Server.STOPWORDS ->
  Server.keywords_of (w :: ks) = Server.keywords_of ks.
Proof.
  intros Hw. apply stopwords_dropped in Hw. unfold Spec.dropped in Hw.
  apply andb_prop in Hw as [_ Hw]. apply negb_true_iff in Hw.
  cbn [Server.keywords_of]. now rewrite Hw.
Qed.

Lemma split_from_stopword (w s : string) :
  In w Server.STOPWORDS ->
  split_from EmptyString (w ++ s) = split_from w s
  /\ truthy w = true.
Proof.
  intros Hw. apply stopwords_dropped in Hw. unfold Spec.dropped in Hw.
  apply andb_prop in Hw as [Hw _]. apply andb_prop in Hw as [Hns Ht].
  split; [| exact Ht].
  now rewrite split_from_word.
Qed.

(** The order of the recency columns. *)
Lemma ascii_compare_trans_lt (a b c : ascii) :
  Ascii.compare a b = Lt -> Ascii.compare b c = Lt -> Ascii.compare a c = Lt.
Proof.
  unfold Ascii.compare. rewrite !N.compare_lt_iff. lia.
Qed.

Lemma compare_trans_lt (s1 : string) :
  forall s2 s3,
    String.compare s1 s2 = Lt -> String.compare s2 s3 = Lt ->
    String.compare s1 s3 = Lt.
Proof.
  induction s1 as [|a s1 IH]; intros [|b s2] [|c s3]; simpl;
    try congruence.
  destruct (Ascii.compare a b) eqn:Hab; try congruence;
    destruct (Ascii.compare b c) eqn:Hbc; try congruence; intros H12 H23.
  - apply Ascii.compare_eq_iff in Hab, Hbc. subst.
    rewrite (proj2 (N.compare_eq_iff _ _) eq_refl : Ascii.compare c c = Eq).
    eauto.
  - apply Ascii.compare_eq_iff in Hab. subst. now rewrite Hbc.
  - apply Ascii.compare_eq_iff in Hbc. subst. now rewrite Hab.
  - now rewrite (ascii_compare_trans_lt _ _ _ Hab Hbc).
Qed.

Lemma leb_trans (s1 s2 s3 : string) :
  String.leb s1 s2 = true -> String.leb s2 s3 = true ->
  String.leb s1 s3 = true.
Proof.
  unfold String.leb.
  destruct (String.compare s1 s2) eqn:H12; try discriminate;
    destruct (String.compare s2 s3) eqn:H23; try discriminate; intros _ _.
  - apply String.compare_eq_iff in H12. subst. now rewrite H23.
  - apply String.compare_eq_iff in H12. subst. now rewrite H23.
  - apply String.compare_eq_iff in H23. subst. now rewrite H12.
  - now rewrite (compare_trans_lt _ _ _ H12 H23).
Qed.

End StrFacts.

Module SearchProps.

Import PyStr Server.

(** ** ORDER BY and LIMIT on any table *)

Section Ordering.

Variable Row : Type.
Variable newer_eq : Row -> Row -> bool.
Hypothesis newer_eq_total :
  forall a b, newer_eq a b = true \/ newer_eq b a = true.
Hypothesis newer_eq_trans :
  forall a b c, newer_eq a b = true -> newer_eq b c = true ->
                newer_eq a c = true.

Local Abbreviation before := (fun a b : Row => newer_eq a b = true).

Lemma insert_desc_perm (r : Row) (l : list Row) :
  Permutation (r :: l) (insert_desc newer_eq r l).
Proof.
  induction l as [|x l IH]; simpl.
  - apply Permutation_refl.
  - destruct (newer_eq r x).
    + apply Permutation_refl.
    + eapply perm_trans; [apply perm_swap |].
      now apply perm_skip.
Qed.

Lemma order_by_desc_perm (l : list Row) :
  Permutation l (order_by_desc newer_eq l).
Proof.
  induction l as [|r l IH]; simpl.
  - apply perm_nil.
  - eapply perm_trans; [apply perm_skip, IH | apply insert_desc_perm].
Qed.

Lemma insert_desc_sorted (r : Row) (l : list Row) :
  StronglySorted before l ->
  StronglySorted before (insert_desc newer_eq r l).
Proof.
  induction 1 as [|x l Hs IH Hx]; simpl.
  - constructor; constructor.
  - destruct (newer_eq r x) eqn:Hrx.
    + constructor; [constructor; assumption |].
      constructor; [exact Hrx |].
      rewrite Forall_forall in *. intros y Hy.
      exact (@newer_eq_trans r x y Hrx (Hx y Hy)).
    + constructor; [exact IH |].
      rewrite Forall_forall in *. intros y Hy.
      apply (Permutation_in _ (Permutation_sym (insert_desc_perm r l))) in Hy.
      destruct Hy as [<- | Hy]; [| now apply Hx].
      destruct (newer_eq_total x r) as [H | H]; [exact H | congruence].
Qed.

Lemma order_by_desc_sorted (l : list Row) :
  StronglySorted before (order_by_desc newer_eq l).
Proof.
  induction l as [|r l IH]; simpl.
  - constructor.
  - now apply insert_desc_sorted.
Qed.

Lemma sorted_firstn (l : list Row) :
  StronglySorted before l ->
  forall n, StronglySorted before (firstn n l).
Proof.
  induction 1 as [|x l Hs IH Hx]; intros [|n]; simpl; try constructor.
  - apply IH.
  - rewrite Forall_forall in *. intros y Hy.
    apply Hx. rewrite <- (firstn_skipn n l). apply in_or_app. now left.
Qed.

Lemma sorted_firstn_before_skipn (l : list Row) :
  StronglySorted before l ->
  forall n a b, In a (firstn n l) -> In b (skipn n l) ->
                newer_eq a b = true.
Proof.
  induction 1 as [|x l Hs IH Hx]; intros [|n] a b Ha Hb; simpl in *;
    try contradiction.
  destruct Ha as [<- | Ha].
  - rewrite Forall_forall in Hx. apply Hx.
    rewrite <- (firstn_skipn n l). apply in_or_app. now right.
  - now apply (IH n).
Qed.

(** The first [n] rows in descending order are the [n] most recent. *)
Lemma limit_takes_most_recent (n : nat) (table : list Row) :
  Spec.MostRecent newer_eq n table
                  (firstn n (order_by_desc newer_eq table)).
Proof.
  exists (skipn n (order_by_desc newer_eq table)).
  repeat split.
  - rewrite firstn_skipn. apply order_by_desc_perm.
  - rewrite length_firstn.
    now rewrite <- (Permutation_length (order_by_desc_perm table)).
  - apply sorted_firstn, order_by_desc_sorted.
  - intros a b. apply sorted_firstn_before_skipn, order_by_desc_sorted.
Qed.

End Ordering.

Lemma filter_all {A} (p : A -> bool) (l : list A) :
  (forall x, p x = true) -> filter p l = l.
Proof.
  intros Hp. induction l as [|x l IH]; simpl; [reflexivity |].
  now rewrite Hp, IH.
Qed.

(** A SELECT without a WHERE clause sorts the whole table. *)
Lemma execute_select_no_where {Row} (sd : Row -> string)
      (newer_eq : Row -> Row -> bool) (limit : Z) (table : list Row) :
  (0 <= limit)%Z ->
  execute_select sd newer_eq {| where_clauses := []; limit_param := limit |}
                 table
  = Ok (firstn (Z.to_nat limit) (order_by_desc newer_eq table)).
Proof.
  intros Hl. unfold execute_select. simpl.
  destruct (Z.ltb_spec limit 0); [lia |].
  now rewrite filter_all.
Qed.

(** Whatever the WHERE clause, LIMIT bounds the answer. *)
Lemma execute_select_bounded {Row} (sd : Row -> string)
      (newer_eq : Row -> Row -> bool) (q : Select) (table : list Row) :
  (0 <= limit_param q)%Z ->
  exists rows,
    execute_select sd newer_eq q table = Ok rows
    /\ (Z.of_nat (List.length rows) <= limit_param q)%Z.
Proof.
  intros Hl. unfold execute_select.
  destruct (Z.ltb_spec (limit_param q) 0); [lia |].
  eexists. split; [reflexivity |].
  pose proof (firstn_le_length (Z.to_nat (limit_param q))
                (order_by_desc newer_eq
                   (filter (satisfies sd (where_clauses q)) table))).
  lia.
Qed.

Lemma kb_newer_eq_total (a b : KBRow) :
  kb_newer_eq a b = true \/ kb_newer_eq b a = true.
Proof. unfold kb_newer_eq. apply String.leb_total. Qed.

Lemma kb_newer_eq_trans (a b c : KBRow) :
  kb_newer_eq a b = true -> kb_newer_eq b c = true -> kb_newer_eq a c = true.
Proof.
  unfold kb_newer_eq. intros H1 H2. exact (StrFacts.leb_trans _ _ _ H2 H1).
Qed.

Lemma inc_newer_eq_total (a b : IncidentRow) :
  inc_newer_eq a b = true \/ inc_newer_eq b a = true.
Proof. unfold inc_newer_eq. apply String.leb_total. Qed.

Lemma inc_newer_eq_trans (a b c : IncidentRow) :
  inc_newer_eq a b = true -> inc_newer_eq b c = true ->
  inc_newer_eq a c = true.
Proof.
  unfold inc_newer_eq. intros H1 H2. exact (StrFacts.leb_trans _ _ _ H2 H1).
Qed.

(** ** Token extraction *)

Lemma keywords_only_stopwords (q : string) :
  Spec.OnlyStopwords q -> keywords q = [].
Proof.
  unfold keywords, split.
  induction 1 as [| c q Hc _ IH | w Hw | w c q Hw Hc _ IH].
  - reflexivity.
  - simpl. now rewrite Hc.
  - destruct (StrFacts.split_from_stopword w EmptyString Hw) as [Hs Ht].
    rewrite StrFacts.append_empty_r in Hs. rewrite Hs. simpl. rewrite Ht.
    now rewrite StrFacts.keywords_of_stopword.
  - destruct (StrFacts.split_from_stopword w (String c q) Hw) as [Hs Ht].
    rewrite Hs. simpl. rewrite Hc, Ht.
    now rewrite StrFacts.keywords_of_stopword.
Qed.

Lemma build_select_no_keywords (q : string) (limit : Z) :
  keywords q = [] ->
  build_select (Some q) limit = {| where_clauses := []; limit_param := limit |}.
Proof.
  intros Hk. unfold build_select. rewrite Hk. now destruct (truthy q).
Qed.

(** ** The claims about search *)

(** C6.  A query made only of stopwords and whitespace yields no token;
    the statement built from it has no WHERE clause, and each search tool
    then returns the [limit] most recent rows of its table: most recent
    by [updated] for knowledge articles, by [opened] for incidents. *)
Theorem stopword_query_is_unfiltered (q : string) (limit : Z) (db : DB) :
  Spec.OnlyStopwords q ->
  (0 <= limit)%Z ->
  keywords q = []
  /\ where_clauses (build_select (Some q) limit) = []
  /\ (exists rows,
         search_knowledge_base (Some q) limit db = Ok (map kb_dict rows)
         /\ Spec.MostRecent
              (fun a b => String.leb (kb_updated b) (kb_updated a))
              (Z.to_nat limit) (knowledge_base db) rows)
  /\ (exists rows,
         search_incidents (Some q) limit db = Ok (map inc_dict rows)
         /\ Spec.MostRecent
              (fun a b => String.leb (inc_opened b) (inc_opened a))
              (Z.to_nat limit) (incidents db) rows).
Proof.
  intros Hq Hl.
  pose proof (keywords_only_stopwords q Hq) as Hk.
  pose proof (build_select_no_keywords q limit Hk) as Hb.
  split; [exact Hk |]. split; [now rewrite Hb |]. split.
  - exists (firstn (Z.to_nat limit)
                   (order_by_desc kb_newer_eq (knowledge_base db))).
    split.
    + unfold search_knowledge_base, kb_rows.
      now rewrite Hb, execute_select_no_where.
    + exact (limit_takes_most_recent
               KBRow kb_newer_eq kb_newer_eq_total kb_newer_eq_trans
               (Z.to_nat limit) (knowledge_base db)).
  - exists (firstn (Z.to_nat limit)
                   (order_by_desc inc_newer_eq (incidents db))).
    split.
    + unfold search_incidents, incident_rows.
      now rewrite Hb, execute_select_no_where.
    + exact (limit_takes_most_recent
               IncidentRow inc_newer_eq inc_newer_eq_total inc_newer_eq_trans
               (Z.to_nat limit) (incidents db)).
Qed.

Lemma stopword_query_is_unfiltered_witness :
  Spec.OnlyStopwords "what is  the" /\ (0 <= 2)%Z
  /\ keywords "what is  the" = []
  /\ exists rows,
       search_knowledge_base (Some "what is  the") 2 Scenario.db0
       = Ok (map kb_dict rows)
       /\ Spec.MostRecent
            (fun a b => String.leb (kb_updated b) (kb_updated a)) 2
            (knowledge_base Scenario.db0) rows.
Proof.
  assert (Hq : Spec.OnlyStopwords "what is  the").
  { apply (@Spec.only_word "what" " " "is  the");
      [simpl; tauto | reflexivity |].
    apply (@Spec.only_word "is" " " " the");
      [simpl; tauto | reflexivity |].
    apply Spec.only_space; [reflexivity |].
    apply Spec.only_last_word. simpl; tauto. }
  assert (Hl : (0 <= 2)%Z) by lia.
  destruct (stopword_query_is_unfiltered "what is  the" 2 Scenario.db0 Hq Hl)
    as (Hk & _ & Hkb & _).
  split; [exact Hq |]. split; [exact Hl |]. split; [exact Hk | exact Hkb].
Defined.

(** C8.  For every query, store and limit of at least one, each search
    tool returns a list, and the list has at most [limit] records. *)
Theorem search_at_most_limit (q : option string) (limit : Z) (db : DB) :
  (1 <= limit)%Z ->
  (exists rows,
      search_knowledge_base q limit db = Ok rows
      /\ (Z.of_nat (List.length rows) <= limit)%Z)
  /\ (exists rows,
         search_incidents q limit db = Ok rows
         /\ (Z.of_nat (List.length rows) <= limit)%Z).
Proof.
  intros Hl.
  assert (H0 : (0 <= limit_param (build_select q limit))%Z)
    by (simpl; lia).
  split.
  - destruct (execute_select_bounded kb_short_description kb_newer_eq
                (build_select q limit) (knowledge_base db) H0)
      as (rows & He & Hn).
    exists (map kb_dict rows).
    unfold search_knowledge_base, kb_rows. rewrite He.
    split; [reflexivity |]. now rewrite length_map.
  - destruct (execute_select_bounded inc_short_description inc_newer_eq
                (build_select q limit) (incidents db) H0)
      as (rows & He & Hn).
    exists (map inc_dict rows).
    unfold search_incidents, incident_rows. rewrite He.
    split; [reflexivity |]. now rewrite length_map.
Qed.

Lemma search_at_most_limit_witness :
  (1 <= 2)%Z
  /\ exists rows,
       search_knowledge_base None 2 Scenario.db0 = Ok rows
       /\ (Z.of_nat (List.length rows) <= 2)%Z.
Proof.
  assert (Hl : (1 <= 2)%Z) by lia.
  split; [exact Hl |].
  exact (proj1 (search_at_most_limit None 2 Scenario.db0 Hl)).
Defined.

(** ** LIKE against substring containment *)

Lemma like_percent_unfold (p s : string) :
  like (String "%" p) s
  = like p s
    || match s with
       | EmptyString => false
       | String _ s' => like (String "%" p) s'
       end.
Proof. destruct s; reflexivity. Qed.

Lemma like_percent_any (s : string) : like "%" s = true.
Proof.
  induction s as [|c s IH]; [reflexivity |].
  rewrite like_percent_unfold. now rewrite IH, orb_true_r.
Qed.

Lemma like_percent_skip (p pre s : string) :
  like p s = true -> like (String "%" p) (pre ++ s) = true.
Proof.
  intros H. induction pre as [|c pre IH]; simpl append;
    rewrite like_percent_unfold.
  - now rewrite H.
  - now rewrite IH, orb_true_r.
Qed.

(** A pattern without backslash matches at least its own text. *)
Lemma like_own_text (kw : string) :
  all_chars (fun c => negb (Ascii.eqb c "\")) kw = true ->
  forall p s, like p s = true -> like (kw ++ p) (kw ++ s) = true.
Proof.
  induction kw as [|c kw IH]; intros Hkw p s H; [exact H |].
  simpl in Hkw. apply andb_prop in Hkw as [Hc Hkw].
  apply negb_true_iff in Hc.
  specialize (IH Hkw p s H).
  simpl append.
  destruct (Ascii.eqb c "%") eqn:Hpct.
  - apply Ascii.eqb_eq in Hpct. subst c.
    rewrite like_percent_unfold.
    replace (like (String "%" (kw ++ p)) (kw ++ s)) with true;
      [apply orb_true_r |].
    symmetry. apply (like_percent_skip (kw ++ p) EmptyString (kw ++ s) IH).
  - cbn [like]. rewrite Hpct.
    destruct (Ascii.eqb c "_"); [exact IH |].
    rewrite Hc. now rewrite Ascii.eqb_refl.
Qed.

(** For a token without backslash, the clause the tools build accepts
    every record whose lowered description contains the token. *)
Lemma plain_token_matches (kw subject : string) :
  all_chars (fun c => negb (Ascii.eqb c "\")) kw = true ->
  Contains kw subject ->
  like ("%" ++ kw ++ "%") subject = true.
Proof.
  intros Hkw (pre & post & ->).
  apply like_percent_skip.
  apply like_own_text; [exact Hkw |].
  apply like_percent_any.
Qed.

(** C7, at the query [c:\temp].  Its one token is not a stopword and is
    a substring of the lowered description of the only article in the
    store, yet the search returns nothing: in the LIKE pattern the
    backslash makes the [t] after it literal and stands for no
    character itself. *)
Theorem backslash_token_misses_record :
  keywords "c:\temp" = ["c:\temp"]
  /\ Contains "c:\temp" (lower (kb_short_description Scenario.kb_temp))
  /\ knowledge_base Scenario.db_temp = [Scenario.kb_temp]
  /\ search_knowledge_base (Some "c:\temp") 5 Scenario.db_temp = Ok [].
Proof.
  split; [reflexivity |]. split; [| split; reflexivity].
  exists "cannot write to ", EmptyString. reflexivity.
Qed.

(** ** Incident numbers and the key of the incidents table *)

Lemma same_second_same_number (t1 t2 : Client.DateTime) :
  Spec.same_second t1 t2 ->
  Client.make_incident_number t1 = Client.make_incident_number t2.
Proof.
  intros (Hy & Hmo & Hd & Hh & Hmi & Hs).
  unfold Client.make_incident_number, Client.strftime_YmdHMS.
  now rewrite Hy, Hmo, Hd, Hh, Hmi, Hs.
Qed.

Lemma create_incident_records_number
      (number opened sd d : string) (st : IncidentState)
      (a : option string) (db db' : DB) (r : PyDict) :
  create_incident number opened sd d st a db = (Ok r, db') ->
  has_number number (incidents db') = true.
Proof.
  unfold create_incident, insert_incident. simpl.
  destruct (has_number number (incidents db)); [discriminate |].
  intros [= _ <-]. simpl. unfold has_number.
  rewrite existsb_app. simpl. now rewrite String.eqb_refl, orb_true_r.
Qed.

(** C5.  Two creations whose clock reads fall in the same second carry
    the same generated number; once the first is stored, the INSERT of
    the second is refused with a duplicate-key error and leaves the
    table as it was. *)
Theorem same_second_insert_rejected
        (t1 t2 : Client.DateTime)
        (opened1 sd1 d1 opened2 sd2 d2 : string)
        (a1 a2 : option string) (db db1 : DB) (r1 : PyDict) :
  Spec.same_second t1 t2 ->
  create_incident (Client.make_incident_number t1) opened1 sd1 d1 New a1 db
  = (Ok r1, db1) ->
  Client.make_incident_number t2 = Client.make_incident_number t1
  /\ exists msg,
       create_incident (Client.make_incident_number t2) opened2 sd2 d2 New a2
                       db1
       = (Raise (IntegrityError msg), db1).
Proof.
  intros Hsame Hfirst.
  pose proof (same_second_same_number t1 t2 Hsame) as Hn.
  split; [now symmetry |].
  apply create_incident_records_number in Hfirst.
  rewrite <- Hn. unfold create_incident, insert_incident. simpl.
  rewrite Hfirst. eexists. reflexivity.
Qed.

Lemma same_second_insert_rejected_witness :
  exists msg,
    create_incident (Client.make_incident_number Scenario.just_before)
                    "2024-01-01T12:00:00.999999" "Printer jam" "Tray 2" New
                    (Some "ops")
                    (snd (create_incident
                            (Client.make_incident_number
                               Scenario.same_second_earlier)
                            "2024-01-01T12:00:00.000005" "VPN down"
                            "Cannot connect" New None Scenario.db0))
    = (Raise (IntegrityError msg),
       snd (create_incident
              (Client.make_incident_number Scenario.same_second_earlier)
              "2024-01-01T12:00:00.000005" "VPN down" "Cannot connect"
              New None Scenario.db0)).
Proof.
  refine (proj2 (same_second_insert_rejected
                   Scenario.same_second_earlier Scenario.just_before
                   "2024-01-01T12:00:00.000005" "VPN down" "Cannot connect"
                   "2024-01-01T12:00:00.999999" "Printer jam" "Tray 2"
                   None (Some "ops") Scenario.db0 _
                   [("status", JStr "success");
                    ("number", JStr "INC20240101120000")]
                   _ eq_refl)).
  repeat split.
Defined.

End SearchProps.

(* ================================================================== *)
(** * Properties of the client *)
(* ================================================================== *)

Module WorkflowProps.

Import PyStr Client.

(** Unfolds the primitive computations of a node. *)
Ltac run_node :=
  unfold bind, Prompt_ask, console_print, now, call_tool_mcp, ret, raise,
         lift, generate_content,
         set_console, set_answers, set_reads, set_calls;
  cbn [answers clock reads mcp calls gemini console fst snd].

Ltac tidy_lists :=
  rewrite <- ?app_assoc; cbn [app];
  rewrite ?length_app; cbn [List.length]; rewrite ?Nat.add_1_r.

(** ** Which branch Escalate takes *)

Lemma branch_create (fb ci : option string) :
  Spec.branch_of fb ci = Spec.CreateIncident ->
  get_eq fb "no" && get_eq ci "yes" = true.
Proof.
  unfold Spec.branch_of, get_eq.
  destruct fb as [fb|], ci as [ci|]; try discriminate;
    destruct (String.eqb fb "no"); try discriminate;
    destruct (String.eqb ci "yes"); try discriminate; reflexivity.
Qed.

Lemma branch_unresolved (fb ci : option string) :
  Spec.branch_of fb ci = Spec.Unresolved ->
  get_eq fb "no" = true /\ get_eq ci "yes" = false.
Proof.
  unfold Spec.branch_of, get_eq.
  destruct fb as [fb|], ci as [ci|]; try discriminate;
    destruct (String.eqb fb "no"); try discriminate;
    try (destruct (String.eqb ci "yes"); try discriminate); now split.
Qed.

Lemma branch_resolved (fb ci : option string) :
  Spec.branch_of fb ci = Spec.Resolved -> get_eq fb "no" = false.
Proof.
  unfold Spec.branch_of, get_eq.
  destruct fb as [fb|], ci as [ci|]; try reflexivity;
    destruct (String.eqb fb "no"); try reflexivity;
    try (destruct (String.eqb ci "yes")); discriminate.
Qed.

Lemma escalation_unresolved (st : AgentState) (w : World) :
  get_eq (user_feedback st) "no" = true ->
  get_eq (user_create_incident st) "yes" = false ->
  escalation_node st w
  = (Ok (with_final_response
           st "No incident created. Issue remains unresolved."), w).
Proof. intros Hfb Hci. unfold escalation_node. now rewrite Hfb, Hci. Qed.

Lemma escalation_resolved (st : AgentState) (w : World) :
  get_eq (user_feedback st) "no" = false ->
  escalation_node st w
  = (Ok (with_final_response st "Glad it helped! No escalation needed."), w).
Proof. intros Hfb. unfold escalation_node. now rewrite Hfb. Qed.

(** ** The incident-creating branch *)

(** With the three details at hand the first branch reads the clock
    twice, makes the two calls in order, and stops at the first call
    that raises. *)
Lemma escalation_create_closed_form
      (st : AgentState) (w : World) (sd d a : string) (rest : list string) :
  get_eq (user_feedback st) "no" && get_eq (user_create_incident st) "yes"
  = true ->
  answers w = sd :: d :: a :: rest ->
  escalation_node st w
  = match mcp w (List.length (calls w)) (Trace.create_call w sd d a) with
    | Raise e =>
        (Raise e, Trace.after w rest [Trace.create_call w sd d a]
                              Trace.dialogue)
    | Ok _ =>
        match mcp w (S (List.length (calls w))) (Trace.email_call w sd d) with
        | Raise e =>
            (Raise e,
             Trace.after w rest
                         [Trace.create_call w sd d a; Trace.email_call w sd d]
                         Trace.dialogue)
        | Ok _ =>
            (Ok (Trace.created st w),
             Trace.after w rest
                         [Trace.create_call w sd d a; Trace.email_call w sd d]
                         (Trace.dialogue ++ [Trace.success_panel w]))
        end
    end.
Proof.
  intros Hc Ha. unfold escalation_node. rewrite Hc.
  run_node. rewrite Ha. run_node. tidy_lists.
  unfold Trace.after, Trace.create_call, Trace.email_call, Trace.dialogue,
         Trace.success_panel, Trace.created.
  destruct (mcp w _ _) as [r1|e1]; [| reflexivity].
  destruct (mcp w _ _) as [r2|e2]; reflexivity.
Qed.

(** Without the three details the branch ends at the prompt that finds
    no answer, before any call. *)
Lemma escalation_create_short_input (st : AgentState) (w : World) :
  get_eq (user_feedback st) "no" && get_eq (user_create_incident st) "yes"
  = true ->
  (List.length (answers w) < 3)%nat ->
  exists w', escalation_node st w = (Raise EOFError, w')
             /\ calls w' = calls w.
Proof.
  intros Hc Hlen. unfold escalation_node. rewrite Hc. run_node.
  destruct (answers w) as [|sd [|d [|a rest]]]; simpl in Hlen;
    try lia; run_node; eexists; split; reflexivity.
Qed.

Lemma escalation_create_opens_dialogue (st : AgentState) (w : World) :
  get_eq (user_feedback st) "no" && get_eq (user_create_incident st) "yes"
  = true ->
  exists out,
    console (snd (escalation_node st w))
    = (console w ++ Panel "Please provide incident details below" :: out)%list.
Proof.
  intros Hc.
  destruct (answers w) as [|sd [|d [|a rest]]] eqn:Ha.
  4: { rewrite (escalation_create_closed_form st w sd d a rest Hc Ha).
       destruct (mcp w _ _) as [r1|e1];
         [destruct (mcp w _ _) as [r2|e2] |];
         eexists; reflexivity. }
  all: unfold escalation_node; rewrite Hc; run_node; rewrite Ha; run_node;
    tidy_lists; eexists; reflexivity.
Qed.

(** Whenever the first branch returns, both calls were made and the
    state names the incident. *)
Lemma escalation_create_returns
      (st : AgentState) (w : World) (st' : AgentState) (w' : World) :
  get_eq (user_feedback st) "no" && get_eq (user_create_incident st) "yes"
  = true ->
  escalation_node st w = (Ok st', w') ->
  exists sd d a rest,
    answers w = sd :: d :: a :: rest
    /\ st' = Trace.created st w
    /\ w' = Trace.after w rest
                        [Trace.create_call w sd d a; Trace.email_call w sd d]
                        (Trace.dialogue ++ [Trace.success_panel w]).
Proof.
  intros Hc Hrun.
  destruct (answers w) as [|sd [|d [|a rest]]] eqn:Ha.
  4: { rewrite (escalation_create_closed_form st w sd d a rest Hc Ha) in Hrun.
       exists sd, d, a, rest.
       destruct (mcp w _ _) as [r1|e1]; [| discriminate].
       destruct (mcp w _ _) as [r2|e2]; [| discriminate].
       injection Hrun as <- <-. auto. }
  all: destruct (escalation_create_short_input st w Hc) as (w1 & Hshort & _);
    [rewrite Ha; simpl; lia | congruence].
Qed.

(** C1.  The branch of Escalate is a function of the two answers, in the
    priority order of the specification.  On (no, yes) the node opens
    the incident dialogue; whenever it returns it has called
    [create_incident] and then [email_send_mock], and [final_response]
    is "Incident <number> created." for the number sent; it does return
    when the three details are entered and the calls return.  On
    (no, other) and on any other feedback it returns at once: the world
    is untouched, [final_response] is the fixed text of that branch, and
    the other fields of the state are as they were. *)
Theorem escalation_branch_selection (st : AgentState) (w : World) :
  match Spec.branch_of (user_feedback st) (user_create_incident st) with
  | Spec.CreateIncident =>
      (exists out,
          console (snd (escalation_node st w))
          = (console w
             ++ Panel "Please provide incident details below" :: out)%list)
      /\ (forall st' w',
             escalation_node st w = (Ok st', w') ->
             exists n sd d a,
               calls w' = (calls w ++ [Trace.create_call w sd d a;
                                       Trace.email_call w sd d])%list
               /\ dict_get (arguments (Trace.create_call w sd d a))
                           "number" JNull = JStr n
               /\ incident_number st' = Some n
               /\ final_response st'
                  = Some ("Incident " ++ n ++ " created."))
      /\ (forall sd d a rest,
             answers w = sd :: d :: a :: rest ->
             (forall k c, exists r, mcp w k c = Ok r) ->
             exists st' w', escalation_node st w = (Ok st', w'))
  | Spec.Unresolved =>
      exists st',
        escalation_node st w = (Ok st', w)
        /\ final_response st'
           = Some "No incident created. Issue remains unresolved."
        /\ Trace.keeps_rest st st'
  | Spec.Resolved =>
      exists st',
        escalation_node st w = (Ok st', w)
        /\ final_response st' = Some "Glad it helped! No escalation needed."
        /\ Trace.keeps_rest st st'
  end.
Proof.
  destruct (Spec.branch_of (user_feedback st) (user_create_incident st))
    eqn:Hb.
  - apply branch_create in Hb. repeat split.
    + now apply escalation_create_opens_dialogue.
    + intros st' w' Hrun.
      destruct (escalation_create_returns st w st' w' Hb Hrun)
        as (sd & d & a & rest & _ & -> & ->).
      exists (make_incident_number (clock w (reads w))), sd, d, a.
      repeat split.
    + intros sd d a rest Ha Hup.
      rewrite (escalation_create_closed_form st w sd d a rest Hb Ha).
      destruct (Hup (List.length (calls w)) (Trace.create_call w sd d a))
        as [r1 ->].
      destruct (Hup (S (List.length (calls w))) (Trace.email_call w sd d))
        as [r2 ->].
      eexists. eexists. reflexivity.
  - apply branch_unresolved in Hb as [Hfb Hci].
    rewrite (escalation_unresolved st w Hfb Hci).
    eexists. split; [reflexivity |]. split; [reflexivity |].
    repeat split.
  - apply branch_resolved in Hb.
    rewrite (escalation_resolved st w Hb).
    eexists. split; [reflexivity |]. split; [reflexivity |].
    repeat split.
Qed.

(** C9.  In the incident-creating branch the [create_incident] request
    carries [assigned_to = None] when the answer to "Assign to" is the
    empty string, and the answer itself otherwise. *)
Theorem empty_assignee_is_absent
        (st : AgentState) (w : World) (sd d a : string) (rest : list string) :
  get_eq (user_feedback st) "no" = true ->
  get_eq (user_create_incident st) "yes" = true ->
  answers w = sd :: d :: a :: rest ->
  exists args later,
    calls (snd (escalation_node st w))
    = (calls w ++ {| tool := "create_incident"; arguments := args |}
               :: later)%list
    /\ (a = EmptyString -> dict_get args "assigned_to" (JStr "unset") = JNull)
    /\ (a <> EmptyString ->
        dict_get args "assigned_to" (JStr "unset") = JStr a).
Proof.
  intros Hfb Hci Ha.
  assert (Hc : get_eq (user_feedback st) "no"
               && get_eq (user_create_incident st) "yes" = true)
    by now rewrite Hfb, Hci.
  rewrite (escalation_create_closed_form st w sd d a rest Hc Ha).
  exists (arguments (Trace.create_call w sd d a)).
  destruct (mcp w _ _) as [r1|e1]; [destruct (mcp w _ _) as [r2|e2] |];
    eexists; (split; [reflexivity |]);
    (split; [intros -> | intros Hne; destruct a; [congruence |]]);
    reflexivity.
Qed.

Lemma empty_assignee_is_absent_witness :
  exists args later,
    calls (snd (escalation_node Scenario.unresolved_wants_incident
                  (Scenario.world Scenario.incident_details Scenario.mcp_up)))
    = {| tool := "create_incident"; arguments := args |} :: later
    /\ dict_get args "assigned_to" (JStr "unset") = JNull.
Proof.
  destruct (empty_assignee_is_absent
              Scenario.unresolved_wants_incident
              (Scenario.world Scenario.incident_details Scenario.mcp_up)
              "VPN down" "Cannot connect since 9am" EmptyString []
              eq_refl eq_refl eq_refl)
    as (args & later & Hcalls & Hnone & _).
  exists args, later. split; [exact Hcalls | exact (Hnone eq_refl)].
Defined.

(** ** The clock *)

Lemma length_append (a b : string) :
  String.length (a ++ b) = (String.length a + String.length b)%nat.
Proof. induction a as [|c a IH]; simpl; [reflexivity | now rewrite IH]. Qed.

Lemma length_zeros (k : nat) : String.length (zeros k) = k.
Proof. induction k; simpl; congruence. Qed.

(** Padding never shortens: a field takes at least its width. *)
Lemma length_zfill (width : nat) (n : N) :
  (width <= String.length (zfill width n))%nat.
Proof. unfold zfill. rewrite length_append, length_zeros. lia. Qed.

Lemma append_split (a : string) :
  forall x r y,
    a ++ r = x ++ y -> String.length a = String.length x -> a = x /\ r = y.
Proof.
  induction a as [|c a IH]; intros [|c' x] r y H Hl; simpl in *;
    try discriminate.
  - now split.
  - injection H as -> H. injection Hl as Hl.
    destruct (IH x r y H Hl) as [-> ->]. now split.
Qed.

(** A stamp of fourteen characters has every field at its width, so the
    fields can be read back. *)
Lemma stamp_fields (t : DateTime) :
  strftime_YmdHMS t = "20240101120000" ->
  zfill 4 (year t) = "2024" /\ zfill 2 (month t) = "01"
  /\ zfill 2 (day t) = "01" /\ zfill 2 (hour t) = "12"
  /\ zfill 2 (minute t) = "00" /\ zfill 2 (second t) = "00".
Proof.
  unfold strftime_YmdHMS. intros H.
  pose proof (length_zfill 4 (year t)) as Ly.
  pose proof (length_zfill 2 (month t)) as Lmo.
  pose proof (length_zfill 2 (day t)) as Ld.
  pose proof (length_zfill 2 (hour t)) as Lh.
  pose proof (length_zfill 2 (minute t)) as Lmi.
  pose proof (length_zfill 2 (second t)) as Ls.
  pose proof (f_equal String.length H) as HL.
  rewrite !length_append in HL.
  change (String.length "20240101120000") with 14%nat in HL.
  assert (Ey : String.length (zfill 4 (year t)) = 4%nat) by lia.
  assert (Emo : String.length (zfill 2 (month t)) = 2%nat) by lia.
  assert (Ed : String.length (zfill 2 (day t)) = 2%nat) by lia.
  assert (Eh : String.length (zfill 2 (hour t)) = 2%nat) by lia.
  assert (Emi : String.length (zfill 2 (minute t)) = 2%nat) by lia.
  apply (append_split _ "2024" _ "0101120000") in H as [Hy H]; [| exact Ey].
  apply (append_split _ "01" _ "01120000") in H as [Hmo H]; [| exact Emo].
  apply (append_split _ "01" _ "120000") in H as [Hd H]; [| exact Ed].
  apply (append_split _ "12" _ "0000") in H as [Hh H]; [| exact Eh].
  apply (append_split _ "00" _ "00") in H as [Hmi H]; [| exact Emi].
  auto 10.
Qed.

(** C2, as the code has it.  In the incident-creating branch the number
    is made from one clock read and the opened field from the next one;
    the two encode the same instant whenever the two reads fall within
    the same clock second. *)
Theorem number_and_opened_use_consecutive_reads
        (st : AgentState) (w : World) (sd d a : string) (rest : list string) :
  get_eq (user_feedback st) "no" = true ->
  get_eq (user_create_incident st) "yes" = true ->
  answers w = sd :: d :: a :: rest ->
  exists args later,
    calls (snd (escalation_node st w))
    = (calls w ++ {| tool := "create_incident"; arguments := args |}
               :: later)%list
    /\ dict_get args "number" JNull
       = JStr (make_incident_number (clock w (reads w)))
    /\ dict_get args "opened" JNull
       = JStr (isoformat (clock w (S (reads w))))
    /\ reads (snd (escalation_node st w)) = S (S (reads w))
    /\ (Spec.same_second (clock w (reads w)) (clock w (S (reads w))) ->
        Spec.same_instant (make_incident_number (clock w (reads w)))
                          (isoformat (clock w (S (reads w))))).
Proof.
  intros Hfb Hci Ha.
  assert (Hc : get_eq (user_feedback st) "no"
               && get_eq (user_create_incident st) "yes" = true)
    by now rewrite Hfb, Hci.
  rewrite (escalation_create_closed_form st w sd d a rest Hc Ha).
  exists (arguments (Trace.create_call w sd d a)).
  assert (Hsame : Spec.same_second (clock w (reads w))
                                   (clock w (S (reads w))) ->
                  Spec.same_instant
                    (make_incident_number (clock w (reads w)))
                    (isoformat (clock w (S (reads w)))))
    by (intros Hss; exists (clock w (S (reads w)));
        split; [now apply SearchProps.same_second_same_number
               | reflexivity]).
  destruct (mcp w _ _) as [r1|e1]; [destruct (mcp w _ _) as [r2|e2] |];
    eexists; repeat split; exact Hsame.
Qed.

Lemma number_and_opened_use_consecutive_reads_witness :
  exists args later,
    calls (snd (escalation_node Scenario.unresolved_wants_incident
                  (Scenario.world Scenario.incident_details Scenario.mcp_up)))
    = {| tool := "create_incident"; arguments := args |} :: later
    /\ dict_get args "number" JNull = JStr "INC20240101120000"
    /\ dict_get args "opened" JNull = JStr "2024-01-01T12:00:01.000001".
Proof.
  destruct (number_and_opened_use_consecutive_reads
              Scenario.unresolved_wants_incident
              (Scenario.world Scenario.incident_details Scenario.mcp_up)
              "VPN down" "Cannot connect since 9am" EmptyString []
              eq_refl eq_refl eq_refl)
    as (args & later & Hcalls & Hn & Ho & _).
  exists args, later. split; [exact Hcalls |]. split; [exact Hn | exact Ho].
Defined.

(** C2 fails when a second ticks over between the two reads, at
    12:00:00.999999 and 12:00:01.000001: the request carries the number
    of 12:00:00 and the opened field of 12:00:01, and no instant
    whatever formats to both. *)
Lemma number_and_opened_skew :
  exists later,
    calls (snd (escalation_node Scenario.unresolved_wants_incident
                  (Scenario.world Scenario.incident_details Scenario.mcp_up)))
    = {| tool := "create_incident";
         arguments :=
           create_incident_args "INC20240101120000"
                                "2024-01-01T12:00:01.000001"
                                "VPN down" "Cannot connect since 9am"
                                EmptyString |} :: later
    /\ ~ Spec.same_instant "INC20240101120000" "2024-01-01T12:00:01.000001".
Proof.
  eexists. split; [vm_compute; reflexivity |].
  intros (t & Hn & Ho). unfold make_incident_number, isoformat in *.
  injection Hn as Hn. symmetry in Hn.
  destruct (stamp_fields t Hn) as (Hy & Hmo & Hd & Hh & Hmi & Hs).
  rewrite Hy, Hmo, Hd, Hh, Hmi, Hs in Ho. simpl in Ho. discriminate.
Qed.

(** ** A notification that fails *)

(** C3, as the code has it.  Once [create_incident] has returned, an
    [email_send_mock] call that raises ends the node with that error and
    without a [final_response]; one that returns, whatever it returns,
    leaves "Incident <number> created." and the same terminal lines. *)
Theorem notification_outcome
        (st : AgentState) (w : World) (sd d a : string) (rest : list string)
        (r1 : CallToolResult) :
  get_eq (user_feedback st) "no" = true ->
  get_eq (user_create_incident st) "yes" = true ->
  answers w = sd :: d :: a :: rest ->
  mcp w (List.length (calls w)) (Trace.create_call w sd d a) = Ok r1 ->
  (forall e,
      mcp w (S (List.length (calls w))) (Trace.email_call w sd d) = Raise e ->
      escalation_node st w
      = (Raise e,
         Trace.after w rest
                     [Trace.create_call w sd d a; Trace.email_call w sd d]
                     Trace.dialogue))
  /\ (forall r2,
         mcp w (S (List.length (calls w))) (Trace.email_call w sd d) = Ok r2 ->
         escalation_node st w
         = (Ok (Trace.created st w),
            Trace.after w rest
                        [Trace.create_call w sd d a; Trace.email_call w sd d]
                        (Trace.dialogue ++ [Trace.success_panel w]))
         /\ final_response (Trace.created st w)
            = Some ("Incident " ++ make_incident_number (clock w (reads w))
                    ++ " created.")).
Proof.
  intros Hfb Hci Ha H1.
  assert (Hc : get_eq (user_feedback st) "no"
               && get_eq (user_create_incident st) "yes" = true)
    by now rewrite Hfb, Hci.
  rewrite (escalation_create_closed_form st w sd d a rest Hc Ha), H1.
  split.
  - intros e ->. reflexivity.
  - intros r2 ->. split; reflexivity.
Qed.

Lemma notification_outcome_witness :
  escalation_node Scenario.unresolved_wants_incident
                  (Scenario.world Scenario.incident_details
                                  Scenario.mcp_mail_down)
  = (Raise (TransportError "Connection closed"),
     Trace.after (Scenario.world Scenario.incident_details
                                 Scenario.mcp_mail_down)
                 []
                 [Trace.create_call
                    (Scenario.world Scenario.incident_details
                                    Scenario.mcp_mail_down)
                    "VPN down" "Cannot connect since 9am" EmptyString;
                  Trace.email_call
                    (Scenario.world Scenario.incident_details
                                    Scenario.mcp_mail_down)
                    "VPN down" "Cannot connect since 9am"]
                 Trace.dialogue).
Proof.
  exact (proj1 (notification_outcome
                  Scenario.unresolved_wants_incident
                  (Scenario.world Scenario.incident_details
                                  Scenario.mcp_mail_down)
                  "VPN down" "Cannot connect since 9am" EmptyString []
                  (Scenario.structured
                     [("status", JStr "success");
                      ("number", JStr "INC20240101120000")])
                  eq_refl eq_refl eq_refl eq_refl)
               (TransportError "Connection closed") eq_refl).
Defined.

(** C3 fails when the notification call raises: the insert had returned
    success, and the run ends with the transport error instead of a
    final response. *)
Lemma notification_failure_aborts_run :
  mcp (Scenario.world Scenario.incident_details Scenario.mcp_mail_down) 0
      (Trace.create_call
         (Scenario.world Scenario.incident_details Scenario.mcp_mail_down)
         "VPN down" "Cannot connect since 9am" EmptyString)
  = Ok (Scenario.structured [("status", JStr "success");
                             ("number", JStr "INC20240101120000")])
  /\ mcp (Scenario.world Scenario.incident_details Scenario.mcp_mail_down) 1
         (Trace.email_call
            (Scenario.world Scenario.incident_details Scenario.mcp_mail_down)
            "VPN down" "Cannot connect since 9am")
     = Raise (TransportError "Connection closed")
  /\ fst (escalation_node
            Scenario.unresolved_wants_incident
            (Scenario.world Scenario.incident_details Scenario.mcp_mail_down))
     = Raise (TransportError "Connection closed")
  /\ ~ (exists st' w',
           escalation_node
             Scenario.unresolved_wants_incident
             (Scenario.world Scenario.incident_details Scenario.mcp_mail_down)
           = (Ok st', w')).
Proof.
  repeat split; try (vm_compute; reflexivity).
  intros (st' & w' & H).
  apply (f_equal fst) in H. vm_compute in H. discriminate.
Qed.

(** ** What a completed run leaves in [final_response] *)

Lemma escalation_sets_final_response
      (st : AgentState) (w : World) (st' : AgentState) (w' : World) :
  escalation_node st w = (Ok st', w') ->
  exists s, final_response st' = Some s /\ s <> EmptyString.
Proof.
  intros Hrun.
  destruct (get_eq (user_feedback st) "no"
            && get_eq (user_create_incident st) "yes") eqn:Hc.
  - destruct (escalation_create_returns st w st' w' Hc Hrun)
      as (sd & d & a & rest & _ & -> & _).
    eexists. split; [reflexivity | discriminate].
  - unfold escalation_node in Hrun. rewrite Hc in Hrun.
    destruct (get_eq (user_feedback st) "no");
      injection Hrun as <- _; eexists; (split; [reflexivity | discriminate]).
Qed.

Lemma resolver_sets_summary
      (st : AgentState) (w : World) (st1 : AgentState) (w1 : World) :
  resolver_node st w = (Ok st1, w1) ->
  exists p t,
    gemini w p = Ok (Some t) /\ final_response st1 = Some (strip t).
Proof.
  unfold resolver_node. run_node.
  destruct (mcp w _ _) as [kb|?]; [| discriminate].
  destruct (mcp w _ _) as [inc|?]; [| discriminate].
  destruct (result_of kb) as [kb_data|?]; [| discriminate].
  destruct (result_of inc) as [inc_data|?]; [| discriminate].
  destruct (table_rows _ _ kb_data) as [kb_table|?]; [| discriminate].
  run_node.
  destruct (table_rows _ _ inc_data) as [inc_table|?]; [| discriminate].
  run_node.
  destruct (gemini w _) as [[t|]|?] eqn:Hg; try discriminate.
  run_node. intros [= <- _].
  eexists. exists t. split; [exact Hg | reflexivity].
Qed.

(** C10.  A run that completes went through a Resolve step that set
    [final_response] to the stripped summary text, and ends with a
    [final_response] that is present and not the empty string. *)
Theorem completed_run_has_final_response
        (st : AgentState) (w : World) (st' : AgentState) (w' : World) :
  ainvoke st w = (Ok st', w') ->
  (exists s, final_response st' = Some s /\ s <> EmptyString)
  /\ (exists st1 w1 p t,
         resolver_node st w = (Ok st1, w1)
         /\ gemini w p = Ok (Some t)
         /\ final_response st1 = Some (strip t)).
Proof.
  unfold ainvoke, bind. intros Hrun.
  destruct (resolver_node st w) as [[s1|e1] w1] eqn:Hres; [| discriminate].
  destruct (confirmation_node s1 w1) as [[s2|e2] w2]; [| discriminate].
  split.
  - exact (escalation_sets_final_response s2 w2 st' w' Hrun).
  - destruct (resolver_sets_summary st w s1 w1 Hres) as (p & t & Hg & Hf).
    exists s1, w1, p, t. auto.
Qed.

Lemma completed_run_has_final_response_witness :
  exists st' w',
    ainvoke (initial_state "vpn not connecting")
            (Scenario.world ["no"; "no"] Scenario.mcp_up) = (Ok st', w')
    /\ exists s, final_response st' = Some s /\ s <> EmptyString.
Proof.
  destruct (ainvoke (initial_state "vpn not connecting")
                    (Scenario.world ["no"; "no"] Scenario.mcp_up))
    as [[st'|e] w'] eqn:Hrun.
  - exists st', w'. split; [reflexivity |].
    exact (proj1 (completed_run_has_final_response _ _ st' w' Hrun)).
  - vm_compute in Hrun. discriminate.
Defined.

(** ** Errors and the chat loop *)

Lemma iteration_propagates
      (w : World) (q : string) (rest : list string) (e : Exn) (w' : World) :
  answers w = q :: rest ->
  mem (lower q) ["exit"; "quit"] = false ->
  ainvoke (initial_state q) (Trace.running w rest) = (Raise e, w') ->
  iteration w = (Raise e, w').
Proof.
  intros Ha Hq Hrun. unfold iteration.
  run_node. rewrite Ha. run_node. rewrite Hq. run_node. tidy_lists.
  unfold Trace.running in Hrun. now rewrite Hrun.
Qed.

(** C4, as the code has it.  An error raised by a run is not caught by
    the chat loop.  At whatever point of the session the run starts, the
    loop ends with that error in the world the failed run left: nothing
    more is printed and no further query is read.  For the first run of
    a session this is the result of [main]. *)
Theorem run_error_ends_session
        (fuel : nat) (w : World) (q : string) (rest : list string)
        (e : Exn) (w' : World) :
  answers w = q :: rest ->
  mem (lower q) ["exit"; "quit"] = false ->
  ainvoke (initial_state q) (Trace.running w rest) = (Raise e, w') ->
  loop (S fuel) w = Some (Raise e, w')
  /\ (forall w0, Trace.greeted w0 = w ->
                 main (S fuel) w0 = Some (Raise e, w')).
Proof.
  intros Ha Hq Hrun.
  assert (Hloop : loop (S fuel) w = Some (Raise e, w')).
  { cbn [loop]. now rewrite (iteration_propagates w q rest e w' Ha Hq Hrun). }
  split; [exact Hloop |].
  intros w0 <-. unfold main, console_print, set_console.
  exact Hloop.
Qed.

Lemma run_error_ends_session_witness :
  answers Scenario.after_first_run = ["printer jam"; "yes"; "exit"]
  /\ exists w',
       loop 1 Scenario.after_first_run
       = Some (Raise (TransportError "All connection attempts failed"), w').
Proof.
  split; [reflexivity |].
  destruct (ainvoke (initial_state "printer jam")
                    (Trace.running Scenario.after_first_run ["yes"; "exit"]))
    as [[st'|e] w'] eqn:Hrun.
  - vm_compute in Hrun. discriminate.
  - exists w'.
    assert (He : e = TransportError "All connection attempts failed")
      by (apply (f_equal fst) in Hrun; vm_compute in Hrun; congruence).
    rewrite <- He.
    exact (proj1 (run_error_ends_session
                    0 Scenario.after_first_run
                    "printer jam" ["yes"; "exit"]
                    e w' eq_refl eq_refl Hrun)).
Defined.

(** C4 fails on a session of two questions whose first run cannot reach
    the server: the session ends with the transport error, the terminal
    shows no failure message, and the second question is never asked
    for. *)
Lemma session_ends_on_first_failure :
  exists w',
    main 10 (Scenario.world Scenario.two_questions Scenario.mcp_down)
    = Some (Raise (TransportError "All connection attempts failed"), w')
    /\ answers w' = ["yes"; "printer jam"; "yes"; "exit"]
    /\ console w'
       = [Panel ("AI Incident Assistant Ready" ++ newline
                 ++ "Type 'exit' to quit.");
          Asked "Describe your IT issue";
          Printed "Running agent...";
          Printed "Searching knowledge base and incidents..."].
Proof.
  eexists. split; [vm_compute; reflexivity |]. split; reflexivity.
Qed.

(** ** The loop ends *)

Lemma consumes_bind {A B} (m : M A) (k : A -> M B) :
  Trace.consumes m -> (forall a, Trace.consumes (k a)) ->
  Trace.consumes (bind m k).
Proof.
  intros Hm Hk w. unfold bind. specialize (Hm w).
  destruct (m w) as [[a|e] w1]; simpl in *; [| exact Hm].
  specialize (Hk a w1). lia.
Qed.

Lemma consumes_ret {A} (a : A) : Trace.consumes (ret a).
Proof. intros w. simpl. lia. Qed.

Lemma consumes_raise {A} (e : Exn) : Trace.consumes (@raise A e).
Proof. intros w. simpl. lia. Qed.

Lemma consumes_lift {A} (o : Outcome A) : Trace.consumes (lift o).
Proof. intros w. simpl. lia. Qed.

Lemma consumes_print (o : Output) : Trace.consumes (console_print o).
Proof. intros w. simpl. lia. Qed.

Lemma consumes_now : Trace.consumes now.
Proof. intros w. simpl. lia. Qed.

Lemma consumes_call (name : string) (args : PyDict) :
  Trace.consumes (call_tool_mcp name args).
Proof. intros w. simpl. lia. Qed.

Lemma consumes_generate (p : ReasoningPrompt) :
  Trace.consumes (generate_content p).
Proof. intros w. simpl. lia. Qed.

Lemma consumes_ask (prompt : string) : Trace.consumes (Prompt_ask prompt).
Proof.
  intros w. unfold Prompt_ask, set_console, set_answers.
  cbn [answers]. destruct (answers w) eqn:Ha; cbn [snd answers];
    rewrite ?Ha; simpl; lia.
Qed.

Create HintDb consumes.

#[local] Hint Resolve consumes_ret consumes_raise consumes_lift
  consumes_print consumes_now consumes_call consumes_generate
  consumes_ask : consumes.

Ltac consumes_steps :=
  repeat first
    [ apply consumes_bind; [| intros ? ]
    | match goal with
      | |- Trace.consumes (if ?b then _ else _) => destruct b
      | |- Trace.consumes (match ?x with _ => _ end) => destruct x
      end
    | solve [ auto with consumes ] ].

Lemma consumes_resolver (st : AgentState) : Trace.consumes (resolver_node st).
Proof. unfold resolver_node. consumes_steps. Qed.

Lemma consumes_confirmation (st : AgentState) :
  Trace.consumes (confirmation_node st).
Proof. unfold confirmation_node. consumes_steps. Qed.

Lemma consumes_escalation (st : AgentState) :
  Trace.consumes (escalation_node st).
Proof. unfold escalation_node. consumes_steps. Qed.

Lemma consumes_ainvoke (st : AgentState) : Trace.consumes (ainvoke st).
Proof.
  unfold ainvoke.
  apply consumes_bind; [apply consumes_resolver | intros s1].
  apply consumes_bind; [apply consumes_confirmation | intros s2].
  apply consumes_escalation.
Qed.

(** Every pass through the loop body reads at least the query. *)
Lemma iteration_reads_query (w : World) (b : bool) (w' : World) :
  iteration w = (Ok b, w') ->
  (List.length (answers w') < List.length (answers w))%nat.
Proof.
  unfold iteration. unfold bind at 1.
  destruct (Prompt_ask "Describe your IT issue" w) as [[q|e] w1] eqn:Hask;
    [| discriminate].
  assert (Hlt : (List.length (answers w1) < List.length (answers w))%nat).
  { unfold Prompt_ask in Hask. simpl in Hask.
    destruct (answers w) as [|a rest] eqn:Ha; [discriminate |].
    injection Hask as _ <-. simpl. lia. }
  intros Hrest.
  assert (Hstep : Trace.consumes
                    (if mem (lower q) ["exit"; "quit"]
                     then (console_print (Printed "Exiting chat...") ;;
                           ret true)
                     else
                       (let state := initial_state q in
                        console_print (Printed "Running agent...") ;;
                        final_state <- ainvoke state ;;
                        text <- match final_response final_state with
                                | Some t => ret t
                                | None => raise (KeyError "final_response")
                                end ;;
                        console_print (Panel text) ;;
                        console_print (Printed separator) ;;
                        ret false))).
  { destruct (mem (lower q) ["exit"; "quit"]); cbv zeta.
    - consumes_steps.
    - apply consumes_bind; [auto with consumes | intros _].
      apply consumes_bind; [apply consumes_ainvoke | intros fs].
      consumes_steps. }
  specialize (Hstep w1). cbv beta zeta in Hrest, Hstep.
  rewrite Hrest in Hstep. simpl in Hstep. lia.
Qed.

(** The session always ends — on "exit" or "quit", or on an error, of
    which the end of input is one — within as many iterations as there
    are answers left, plus one. *)
Lemma loop_ends (fuel : nat) :
  forall w, (List.length (answers w) < fuel)%nat ->
            exists r, loop fuel w = Some r.
Proof.
  induction fuel as [|fuel IH]; intros w Hlen; [lia |].
  cbn [loop].
  destruct (iteration w) as [[[|]|e] w1] eqn:Hit.
  - eexists. reflexivity.
  - apply iteration_reads_query in Hit. apply IH. lia.
  - eexists. reflexivity.
Qed.

Lemma main_ends (w : World) :
  exists r, main (S (List.length (answers w))) w = Some r.
Proof.
  unfold main, console_print. apply loop_ends. simpl. lia.
Qed.

End WorkflowProps.

(* ================================================================== *)
(** * Further properties: the tokens of a query *)
(* ================================================================== *)

Module TokenProps.

Import PyStr Server.

Lemma lower_char_idempotent (c : ascii) :
  lower_char (lower_char c) = lower_char c.
Proof. destruct c as [[] [] [] [] [] [] [] []]; reflexivity. Qed.

Lemma isspace_lower_char (c : ascii) : isspace (lower_char c) = isspace c.
Proof. destruct c as [[] [] [] [] [] [] [] []]; reflexivity. Qed.

Lemma lower_idempotent (s : string) : lower (lower s) = lower s.
Proof.
  induction s as [|c s IH]; simpl; [reflexivity |].
  now rewrite lower_char_idempotent, IH.
Qed.

Lemma lower_append (a b : string) : lower (a ++ b) = lower a ++ lower b.
Proof. induction a as [|c a IH]; simpl; [reflexivity | now rewrite IH]. Qed.

Lemma truthy_lower (s : string) : truthy (lower s) = truthy s.
Proof. destruct s; reflexivity. Qed.

Lemma all_chars_append (p : ascii -> bool) (a b : string) :
  all_chars p (a ++ b) = all_chars p a && all_chars p b.
Proof.
  induction a as [|c a IH]; simpl; [reflexivity |].
  now rewrite IH, andb_assoc.
Qed.

Lemma no_space_lower (s : string) :
  all_chars Spec.no_space (lower s) = all_chars Spec.no_space s.
Proof.
  induction s as [|c s IH]; simpl; [reflexivity |].
  unfold Spec.no_space at 1 3. now rewrite isspace_lower_char, IH.
Qed.

(** [split] hands over words: not empty, and free of whitespace. *)
Lemma split_from_words (s : string) :
  forall cur,
    all_chars Spec.no_space cur = true ->
    Forall (fun k => truthy k = true /\ all_chars Spec.no_space k = true)
           (split_from cur s).
Proof.
  induction s as [|c s IH]; intros cur Hcur; simpl.
  - destruct (truthy cur) eqn:Ht; constructor; auto.
  - destruct (isspace c) eqn:Hc.
    + destruct (truthy cur) eqn:Ht; [constructor; auto |]; now apply IH.
    + apply IH. rewrite all_chars_append, Hcur. simpl.
      unfold Spec.no_space. now rewrite Hc.
Qed.

Lemma split_words (s : string) :
  Forall (fun k => truthy k = true /\ all_chars Spec.no_space k = true)
         (split s).
Proof. now apply split_from_words. Qed.

Lemma lstrip_word (k : string) :
  all_chars Spec.no_space k = true -> lstrip k = k.
Proof.
  destruct k as [|c k]; simpl; [reflexivity |].
  unfold Spec.no_space at 1. intros H. apply andb_prop in H as [H _].
  apply negb_true_iff in H. now rewrite H.
Qed.

Lemma rstrip_word (k : string) :
  all_chars Spec.no_space k = true -> rstrip k = k.
Proof.
  induction k as [|c k IH]; simpl; [reflexivity |].
  unfold Spec.no_space at 1. intros H. apply andb_prop in H as [Hc Hk].
  apply negb_true_iff in Hc. rewrite (IH Hk), Hc. now destruct k.
Qed.

Lemma strip_word (k : string) :
  all_chars Spec.no_space k = true -> strip k = k.
Proof.
  intros H. unfold strip. rewrite (lstrip_word k H). now apply rstrip_word.
Qed.

Lemma keywords_of_words (ks : list string) :
  Forall (fun k => truthy k = true /\ all_chars Spec.no_space k = true) ks ->
  keywords_of ks = filter Spec.non_stopword (map lower ks).
Proof.
  induction 1 as [|k ks [Ht Hk] _ IH]; simpl; [reflexivity |].
  rewrite (strip_word k Hk), Ht, IH. reflexivity.
Qed.

Lemma keywords_unstripped (q : string) :
  keywords q = filter Spec.non_stopword (map lower (split q)).
Proof. apply keywords_of_words, split_words. Qed.

Lemma split_from_lower (s : string) :
  forall cur,
    split_from (lower cur) (lower s) = map lower (split_from cur s).
Proof.
  induction s as [|c s IH]; intros cur; simpl.
  - rewrite truthy_lower. now destruct (truthy cur).
  - rewrite isspace_lower_char, truthy_lower.
    destruct (isspace c).
    + destruct (truthy cur); simpl; [f_equal |]; apply (IH EmptyString).
    + rewrite <- IH. now rewrite lower_append.
Qed.

Lemma keywords_lower (q : string) : keywords (lower q) = keywords q.
Proof.
  rewrite !keywords_unstripped. unfold split.
  change (split_from EmptyString (lower q))
    with (split_from (lower EmptyString) (lower q)).
  rewrite (split_from_lower q EmptyString), map_map.
  f_equal. apply map_ext. intros k. apply lower_idempotent.
Qed.

Lemma split_from_append (a : string) :
  forall cur c b,
    isspace c = true ->
    split_from cur (a ++ String c b)
    = (split_from cur a ++ split_from EmptyString b)%list.
Proof.
  induction a as [|x a IH]; intros cur c b Hc; simpl.
  - rewrite Hc. now destruct (truthy cur).
  - destruct (isspace x).
    + destruct (truthy cur); simpl; [f_equal |]; now apply IH.
    + now apply IH.
Qed.

Lemma keywords_of_app (k1 k2 : list string) :
  keywords_of (k1 ++ k2) = (keywords_of k1 ++ keywords_of k2)%list.
Proof.
  induction k1 as [|k k1 IH]; [reflexivity |].
  cbn [app keywords_of]. rewrite IH.
  now destruct (truthy (strip k) && negb (mem (lower (strip k)) STOPWORDS)).
Qed.

Lemma keywords_joined (q1 q2 : string) (c : ascii) :
  isspace c = true ->
  keywords (q1 ++ String c q2) = (keywords q1 ++ keywords q2)%list.
Proof.
  intros Hc. unfold keywords, split.
  now rewrite split_from_append, keywords_of_app.
Qed.

(** X1.  The three [strip] calls of the comprehension change nothing:
    the tokens of a query are its whitespace-separated words, lowered,
    without the stopwords, in their order and with their repetitions. *)
Theorem keywords_strip_is_redundant (q : string) :
  keywords q = filter Spec.non_stopword (map lower (split q)).
Proof. apply keywords_unstripped. Qed.

(** X2.  Every token is non-empty, free of whitespace, in lower case, and
    not a stopword. *)
Theorem keywords_are_normalised (q kw : string) :
  In kw (keywords q) ->
  truthy kw = true
  /\ all_chars Spec.no_space kw = true
  /\ lower kw = kw
  /\ mem kw STOPWORDS = false.
Proof.
  rewrite keywords_unstripped. intros H.
  apply filter_In in H as [H Hns].
  apply in_map_iff in H as (k & <- & Hk).
  pose proof (split_words q) as Hw. rewrite Forall_forall in Hw.
  destruct (Hw k Hk) as [Ht Hsp].
  repeat split.
  - now rewrite truthy_lower.
  - now rewrite no_space_lower.
  - apply lower_idempotent.
  - now apply negb_true_iff.
Qed.

Lemma keywords_are_normalised_witness :
  In "vpn" (keywords "The VPN is down")
  /\ lower "vpn" = "vpn" /\ mem "vpn" STOPWORDS = false.
Proof.
  assert (Hin : In "vpn" (keywords "The VPN is down"))
    by exact (or_introl eq_refl).
  destruct (keywords_are_normalised "The VPN is down" "vpn" Hin)
    as (_ & _ & Hl & Hs).
  split; [exact Hin |]. split; [exact Hl | exact Hs].
Defined.

(** X3.  Joining two queries by a whitespace character joins their
    token lists. *)
Theorem keywords_of_joined_queries (q1 q2 : string) (c : ascii) :
  isspace c = true ->
  keywords (q1 ++ String c q2) = (keywords q1 ++ keywords q2)%list.
Proof. apply keywords_joined. Qed.

Lemma keywords_of_joined_queries_witness :
  keywords ("vpn is down" ++ String " " "on my laptop")
  = (keywords "vpn is down" ++ keywords "on my laptop")%list.
Proof.
  exact (keywords_of_joined_queries "vpn is down" "on my laptop" " " eq_refl).
Defined.

End TokenProps.

(* ================================================================== *)
(** * Further properties: the SELECT of the search tools *)
(* ================================================================== *)

Module SelectProps.

Import PyStr Server.

Section AnyTable.

Variable Row : Type.
Variable sd : Row -> string.
Variable newer_eq : Row -> Row -> bool.

Lemma execute_select_ok (q : Select) (table : list Row) :
  (0 <= limit_param q)%Z ->
  execute_select sd newer_eq q table
  = Ok (firstn (Z.to_nat (limit_param q))
               (order_by_desc newer_eq
                  (filter (satisfies sd (where_clauses q)) table))).
Proof.
  intros Hl. unfold execute_select.
  now destruct (Z.ltb_spec (limit_param q) 0); [lia |].
Qed.

Lemma execute_select_negative (q : Select) (table : list Row) :
  (limit_param q < 0)%Z ->
  exists msg,
    execute_select sd newer_eq q table = Raise (ProgrammingError msg).
Proof.
  intros Hl. unfold execute_select.
  destruct (Z.ltb_spec (limit_param q) 0); [| lia]. eexists. reflexivity.
Qed.

Lemma in_firstn (n : nat) (l : list Row) (r : Row) :
  In r (firstn n l) -> In r l.
Proof.
  intros H. rewrite <- (firstn_skipn n l). apply in_or_app. now left.
Qed.

Lemma selected_rows_match (q : Select) (table rows : list Row) :
  execute_select sd newer_eq q table = Ok rows ->
  forall r, In r rows ->
            In r table /\ satisfies sd (where_clauses q) r = true.
Proof.
  unfold execute_select. destruct (limit_param q <? 0)%Z; [discriminate |].
  intros [= <-] r Hr. apply in_firstn in Hr.
  apply (Permutation_in _
           (Permutation_sym (SearchProps.order_by_desc_perm Row newer_eq _)))
    in Hr.
  now apply filter_In in Hr.
Qed.

Lemma small_table_selected (q : Select) (table : list Row) (r : Row) :
  (Z.of_nat (List.length table) <= limit_param q)%Z ->
  In r table ->
  satisfies sd (where_clauses q) r = true ->
  exists rows,
    execute_select sd newer_eq q table = Ok rows /\ In r rows.
Proof.
  intros Hl Hr Hs. rewrite execute_select_ok by lia.
  eexists. split; [reflexivity |].
  rewrite firstn_all2.
  - apply (Permutation_in _ (SearchProps.order_by_desc_perm Row newer_eq _)).
    apply filter_In. now split.
  - rewrite <- (Permutation_length
                  (SearchProps.order_by_desc_perm Row newer_eq _)).
    pose proof (filter_length_le (satisfies sd (where_clauses q)) table).
    lia.
Qed.

End AnyTable.

(** The WHERE clause of a query with tokens: one OR over its patterns. *)
Lemma build_select_keywords (s : string) (limit : Z) :
  keywords s <> [] ->
  where_clauses (build_select (Some s) limit)
  = [map (fun kw => "%" ++ kw ++ "%") (keywords s)].
Proof.
  intros Hk. unfold build_select. cbn [where_clauses].
  destruct s as [|c s]; [now elim Hk |]. cbn [truthy].
  now destruct (keywords (String c s)).
Qed.

Lemma satisfies_some_token {Row} (sd : Row -> string) (s : string)
      (limit : Z) (r : Row) :
  keywords s <> [] ->
  satisfies sd (where_clauses (build_select (Some s) limit)) r = true <->
  exists kw, In kw (keywords s)
             /\ like ("%" ++ kw ++ "%") (lower (sd r)) = true.
Proof.
  intros Hk. rewrite (build_select_keywords s limit Hk).
  unfold satisfies. cbn [forallb]. rewrite andb_true_r, existsb_exists.
  split.
  - intros (pat & Hin & Hlike). apply in_map_iff in Hin as (kw & <- & Hkw).
    now exists kw.
  - intros (kw & Hkw & Hlike). exists ("%" ++ kw ++ "%").
    split; [| exact Hlike]. apply in_map_iff. now exists kw.
Qed.

Lemma existsb_map {A B} (f : B -> bool) (g : A -> B) (l : list A) :
  existsb f (map g l) = existsb (fun x => f (g x)) l.
Proof. induction l as [|x l IH]; simpl; [reflexivity | now rewrite IH]. Qed.

(** The WHERE clause that the tools build accepts the rows that match. *)
Lemma satisfies_wanted {Row} (sd : Row -> string) (q : option string)
      (limit : Z) (r : Row) :
  satisfies sd (where_clauses (build_select q limit)) r
  = Spec.wanted q (sd r).
Proof.
  unfold build_select, Spec.wanted. cbn [where_clauses].
  destruct q as [s|]; [| reflexivity].
  destruct s as [|c s]; [reflexivity |]. cbn [truthy].
  destruct (keywords (String c s)) as [|kw kws]; [reflexivity |].
  unfold satisfies. cbn [forallb]. now rewrite andb_true_r, existsb_map.
Qed.

Lemma build_select_lower (s1 s2 : string) (limit : Z) :
  lower s1 = lower s2 ->
  build_select (Some s1) limit = build_select (Some s2) limit.
Proof.
  intros H. unfold build_select.
  rewrite <- (TokenProps.keywords_lower s1), <- (TokenProps.keywords_lower s2).
  rewrite <- (TokenProps.truthy_lower s1), <- (TokenProps.truthy_lower s2).
  now rewrite H.
Qed.

End SelectProps.

(* ================================================================== *)
(** * Further properties: the search and insert tools *)
(* ================================================================== *)

Module ToolProps.

Import PyStr Server SelectProps.

(** X4.  A search does not depend on the letter case of the query: two
    queries with the same lowered text give the same answer, for both
    tools, on every store. *)
Theorem search_ignores_query_case
        (s1 s2 : string) (limit : Z) (db : DB) :
  lower s1 = lower s2 ->
  search_knowledge_base (Some s1) limit db
  = search_knowledge_base (Some s2) limit db
  /\ search_incidents (Some s1) limit db
     = search_incidents (Some s2) limit db.
Proof.
  intros H.
  unfold search_knowledge_base, search_incidents, kb_rows, incident_rows.
  now rewrite (build_select_lower s1 s2 limit H).
Qed.

Lemma search_ignores_query_case_witness :
  search_knowledge_base (Some "VPN Down") 5 Scenario.db0
  = search_knowledge_base (Some "vpn down") 5 Scenario.db0.
Proof.
  exact (proj1 (search_ignores_query_case "VPN Down" "vpn down" 5
                  Scenario.db0 eq_refl)).
Defined.

(** X5.  Every record a search returns is a row of the table, and when
    the query has tokens the lowered description of the row matches the
    pattern of at least one of them. *)
Theorem search_returns_matching_rows
        (q : option string) (limit : Z) (db : DB) :
  (0 <= limit)%Z ->
  (exists rows,
      search_knowledge_base q limit db = Ok (map kb_dict rows)
      /\ forall r, In r rows ->
           In r (knowledge_base db)
           /\ forall s, q = Some s -> keywords s <> [] ->
                exists kw, In kw (keywords s)
                  /\ like ("%" ++ kw ++ "%")
                          (lower (kb_short_description r)) = true)
  /\ (exists rows,
         search_incidents q limit db = Ok (map inc_dict rows)
         /\ forall r, In r rows ->
              In r (incidents db)
              /\ forall s, q = Some s -> keywords s <> [] ->
                   exists kw, In kw (keywords s)
                     /\ like ("%" ++ kw ++ "%")
                             (lower (inc_short_description r)) = true).
Proof.
  intros Hl. split.
  - pose proof (execute_select_ok _ kb_short_description kb_newer_eq
                  (build_select q limit) (knowledge_base db) Hl) as He.
    eexists. split.
    + unfold search_knowledge_base, kb_rows. now rewrite He.
    + intros r Hr.
      destruct (selected_rows_match _ _ _ _ _ _ He r Hr) as [Hin Hs].
      split; [exact Hin |]. intros s -> Hk.
      now apply (satisfies_some_token kb_short_description s limit r Hk).
  - pose proof (execute_select_ok _ inc_short_description inc_newer_eq
                  (build_select q limit) (incidents db) Hl) as He.
    eexists. split.
    + unfold search_incidents, incident_rows. now rewrite He.
    + intros r Hr.
      destruct (selected_rows_match _ _ _ _ _ _ He r Hr) as [Hin Hs].
      split; [exact Hin |]. intros s -> Hk.
      now apply (satisfies_some_token inc_short_description s limit r Hk).
Qed.

Lemma search_returns_matching_rows_witness :
  (0 <= 5)%Z
  /\ exists rows,
       search_knowledge_base (Some "mailbox") 5 Scenario.db0
       = Ok (map kb_dict rows)
       /\ forall r, In r rows -> In r (knowledge_base Scenario.db0).
Proof.
  assert (Hl : (0 <= 5)%Z) by lia.
  split; [exact Hl |].
  destruct (proj1 (search_returns_matching_rows (Some "mailbox") 5
                     Scenario.db0 Hl)) as (rows & He & Hrows).
  exists rows. split; [exact He |].
  intros r Hr. exact (proj1 (Hrows r Hr)).
Defined.

(** X6.  For every query, a search returns the [limit] most recent of
    the records that match it, most recent first: those, when the query
    has tokens, whose lowered description matches the pattern of one of
    them, and all records otherwise; most recent by [updated] for
    knowledge articles and by [opened] for incidents. *)
Theorem search_takes_most_recent_matches
        (q : option string) (limit : Z) (db : DB) :
  (0 <= limit)%Z ->
  (exists rows,
      search_knowledge_base q limit db = Ok (map kb_dict rows)
      /\ Spec.MostRecent
           (fun a b => String.leb (kb_updated b) (kb_updated a))
           (Z.to_nat limit)
           (filter (fun r => Spec.wanted q (kb_short_description r))
                   (knowledge_base db))
           rows)
  /\ (exists rows,
         search_incidents q limit db = Ok (map inc_dict rows)
         /\ Spec.MostRecent
              (fun a b => String.leb (inc_opened b) (inc_opened a))
              (Z.to_nat limit)
              (filter (fun r => Spec.wanted q (inc_short_description r))
                      (incidents db))
              rows).
Proof.
  intros Hl. split.
  - eexists. split.
    + unfold search_knowledge_base, kb_rows.
      now rewrite execute_select_ok.
    + rewrite (filter_ext _ _ (satisfies_wanted kb_short_description q limit)).
      exact (SearchProps.limit_takes_most_recent
               KBRow kb_newer_eq SearchProps.kb_newer_eq_total
               SearchProps.kb_newer_eq_trans (Z.to_nat limit) _).
  - eexists. split.
    + unfold search_incidents, incident_rows.
      now rewrite execute_select_ok.
    + rewrite (filter_ext _ _ (satisfies_wanted inc_short_description q limit)).
      exact (SearchProps.limit_takes_most_recent
               IncidentRow inc_newer_eq SearchProps.inc_newer_eq_total
               SearchProps.inc_newer_eq_trans (Z.to_nat limit) _).
Qed.

Lemma search_takes_most_recent_matches_witness :
  (0 <= 1)%Z
  /\ exists rows,
       search_knowledge_base (Some "not connecting") 1 Scenario.db0
       = Ok (map kb_dict rows)
       /\ Spec.MostRecent
            (fun a b => String.leb (kb_updated b) (kb_updated a)) 1
            (filter (fun r => Spec.wanted (Some "not connecting")
                                          (kb_short_description r))
                    (knowledge_base Scenario.db0))
            rows.
Proof.
  assert (Hl : (0 <= 1)%Z) by lia.
  split; [exact Hl |].
  exact (proj1 (search_takes_most_recent_matches (Some "not connecting") 1
                  Scenario.db0 Hl)).
Defined.

(** X7.  A token without backslash that occurs in the lowered
    description of an article finds that article, when the limit is at
    least the size of the knowledge base. *)
Theorem search_finds_plain_token
        (s kw : string) (limit : Z) (db : DB) (r : KBRow) :
  In kw (keywords s) ->
  all_chars (fun c => negb (Ascii.eqb c "\")) kw = true ->
  Contains kw (lower (kb_short_description r)) ->
  In r (knowledge_base db) ->
  (Z.of_nat (List.length (knowledge_base db)) <= limit)%Z ->
  exists found,
    search_knowledge_base (Some s) limit db = Ok found
    /\ In (kb_dict r) found.
Proof.
  intros Hkw Hplain Hsub Hr Hl.
  assert (Hk : keywords s <> []) by (intros E; now rewrite E in Hkw).
  assert (Hs : satisfies kb_short_description
                         (where_clauses (build_select (Some s) limit)) r
               = true).
  { apply (satisfies_some_token kb_short_description s limit r Hk).
    exists kw. split; [exact Hkw |].
    now apply SearchProps.plain_token_matches. }
  destruct (small_table_selected _ kb_short_description kb_newer_eq
              (build_select (Some s) limit) (knowledge_base db) r Hl Hr Hs)
    as (rows & He & Hin).
  exists (map kb_dict rows). unfold search_knowledge_base, kb_rows.
  rewrite He. split; [reflexivity | now apply in_map].
Qed.

Lemma search_finds_plain_token_witness :
  exists found,
    search_knowledge_base (Some "vpn not connecting") 5 Scenario.db0
    = Ok found
    /\ In (kb_dict Scenario.kb_vpn) found.
Proof.
  assert (Hl : (Z.of_nat (List.length (knowledge_base Scenario.db0)) <= 5)%Z)
    by (simpl; lia).
  exact (search_finds_plain_token
           "vpn not connecting" "vpn" 5 Scenario.db0 Scenario.kb_vpn
           (or_introl eq_refl) eq_refl
           (ex_intro _ EmptyString
                     (ex_intro _ " connection troubleshooting" eq_refl))
           (or_introl eq_refl) Hl).
Defined.

(** X8.  The tools pass [limit] to the engine unchecked: with a negative
    limit the statement is rejected and the tool raises instead of
    returning records. *)
Theorem search_rejects_negative_limit
        (q : option string) (limit : Z) (db : DB) :
  (limit < 0)%Z ->
  (exists msg,
      search_knowledge_base q limit db = Raise (ProgrammingError msg))
  /\ (exists msg,
         search_incidents q limit db = Raise (ProgrammingError msg)).
Proof.
  intros Hl. split.
  - destruct (execute_select_negative _ kb_short_description kb_newer_eq
                (build_select q limit) (knowledge_base db) Hl) as [msg He].
    exists msg. unfold search_knowledge_base, kb_rows. now rewrite He.
  - destruct (execute_select_negative _ inc_short_description inc_newer_eq
                (build_select q limit) (incidents db) Hl) as [msg He].
    exists msg. unfold search_incidents, incident_rows. now rewrite He.
Qed.

Lemma search_rejects_negative_limit_witness :
  exists msg,
    search_knowledge_base (Some "vpn") (-1) Scenario.db0
    = Raise (ProgrammingError msg).
Proof.
  exact (proj1 (search_rejects_negative_limit (Some "vpn") (-1)
                  Scenario.db0 eq_refl)).
Defined.

(** X9.  Tokens are alternatives: once a query has a token, adding more
    words to it never makes a row stop satisfying the WHERE clause. *)
Theorem more_words_never_narrow
        (Row : Type) (sd : Row -> string) (r : Row)
        (s1 s2 : string) (c : ascii) (limit : Z) :
  isspace c = true ->
  keywords s1 <> [] ->
  satisfies sd (where_clauses (build_select (Some s1) limit)) r = true ->
  satisfies sd (where_clauses (build_select (Some (s1 ++ String c s2)) limit))
            r
  = true.
Proof.
  intros Hc Hk Hs.
  apply (satisfies_some_token sd s1 limit r Hk) in Hs
    as (kw & Hkw & Hlike).
  assert (Hin : In kw (keywords (s1 ++ String c s2)))
    by (rewrite TokenProps.keywords_joined by exact Hc;
        apply in_or_app; now left).
  apply satisfies_some_token.
  - intros E. now rewrite E in Hin.
  - now exists kw.
Qed.

Lemma more_words_never_narrow_witness :
  satisfies kb_short_description
            (where_clauses (build_select (Some ("vpn" ++ String " " "printer"))
                                         5))
            Scenario.kb_vpn
  = true.
Proof.
  refine (more_words_never_narrow KBRow kb_short_description Scenario.kb_vpn
            "vpn" "printer" " " 5 eq_refl _ eq_refl).
  discriminate.
Defined.



End ToolProps.

(* ================================================================== *)
(** * Further properties: incident numbers *)
(* ================================================================== *)

Module ClockProps.

Import PyStr Client.

Lemma below_in_range (bound : nat) (n : N) :
  (N.to_nat n < bound)%nat -> In (N.to_nat n) (seq 0 bound).
Proof. intros H. apply in_seq. lia. Qed.

Lemma fills_two (n : N) : (n < 100)%N -> Spec.fills 2 n = true.
Proof.
  intros H.
  assert (Hall : forallb (fun k => Spec.fills 2 (N.of_nat k)) (seq 0 100)
                 = true)
    by (vm_compute; reflexivity).
  rewrite forallb_forall in Hall.
  specialize (Hall (N.to_nat n) (below_in_range 100 n ltac:(lia))).
  now rewrite N2Nat.id in Hall.
Qed.

Lemma fills_four (n : N) : (n < 10000)%N -> Spec.fills 4 n = true.
Proof.
  intros H.
  assert (Hall : forallb (fun k => Spec.fills 4 (N.of_nat k))
                         (seq 0 (100 * 100)) = true)
    by (vm_compute; reflexivity).
  rewrite forallb_forall in Hall.
  specialize (Hall (N.to_nat n) (below_in_range (100 * 100) n ltac:(lia))).
  now rewrite N2Nat.id in Hall.
Qed.

Lemma fills_spec (width : nat) (n : N) :
  Spec.fills width n = true ->
  String.length (zfill width n) = width
  /\ all_chars Spec.is_digit (zfill width n) = true.
Proof.
  unfold Spec.fills. intros H. apply andb_prop in H as [Hl Hd].
  now apply Nat.eqb_eq in Hl.
Qed.

Lemma uint_of_zeros (k : nat) (s : string) (d : Decimal.uint) :
  NilEmpty.uint_of_string s = Some d ->
  exists d', NilEmpty.uint_of_string (zeros k ++ s) = Some d'
             /\ N.of_uint d' = N.of_uint d.
Proof.
  intros Hs. induction k as [|k (d' & Hd & Hv)]; simpl.
  - now exists d.
  - rewrite Hd. exists (Decimal.D0 d'). now split.
Qed.

(** Reading a padded field back gives the number that was written. *)
Lemma number_of_zfill (width : nat) (n : N) :
  Spec.number_of_text (zfill width n) = Some n.
Proof.
  unfold Spec.number_of_text, zfill, digits.
  destruct (uint_of_zeros (width - String.length
                                     (NilEmpty.string_of_uint (N.to_uint n)))
              _ _ (NilEmpty.usu (N.to_uint n))) as (d' & -> & Hv).
  simpl. now rewrite Hv, DecimalN.Unsigned.of_to.
Qed.

Lemma zfill_injective (width : nat) (a b : N) :
  zfill width a = zfill width b -> a = b.
Proof.
  intros H. apply (f_equal Spec.number_of_text) in H.
  rewrite !number_of_zfill in H. congruence.
Qed.

Lemma valid_fields (t : DateTime) :
  Spec.valid_datetime t ->
  Spec.fills 4 (year t) = true /\ Spec.fills 2 (month t) = true
  /\ Spec.fills 2 (day t) = true /\ Spec.fills 2 (hour t) = true
  /\ Spec.fills 2 (minute t) = true /\ Spec.fills 2 (second t) = true.
Proof.
  intros (Hy & Hmo & Hd & Hh & Hmi & Hs & _).
  repeat split; first [apply fills_four | apply fills_two]; lia.
Qed.

(** X12.  For a clock value in the ranges of [datetime], the incident
    number is "INC" followed by exactly fourteen decimal digits. *)
Theorem incident_number_shape (t : DateTime) :
  Spec.valid_datetime t ->
  exists stamp,
    make_incident_number t = "INC" ++ stamp
    /\ String.length stamp = 14%nat
    /\ all_chars Spec.is_digit stamp = true.
Proof.
  intros Hv.
  destruct (valid_fields t Hv) as (Hy & Hmo & Hd & Hh & Hmi & Hs).
  apply fills_spec in Hy as [Ly Dy], Hmo as [Lmo Dmo], Hd as [Ld Dd],
        Hh as [Lh Dh], Hmi as [Lmi Dmi], Hs as [Ls Ds].
  exists (strftime_YmdHMS t). split; [reflexivity |].
  unfold strftime_YmdHMS. split.
  - rewrite !WorkflowProps.length_append. lia.
  - rewrite !TokenProps.all_chars_append.
    now rewrite Dy, Dmo, Dd, Dh, Dmi, Ds.
Qed.

Lemma valid_just_before : Spec.valid_datetime Scenario.just_before.
Proof. unfold Spec.valid_datetime. simpl. lia. Qed.

Lemma valid_same_second_earlier :
  Spec.valid_datetime Scenario.same_second_earlier.
Proof. unfold Spec.valid_datetime. simpl. lia. Qed.

Lemma incident_number_shape_witness :
  exists stamp,
    make_incident_number Scenario.just_before = "INC" ++ stamp
    /\ String.length stamp = 14%nat
    /\ all_chars Spec.is_digit stamp = true.
Proof.
  exact (incident_number_shape Scenario.just_before valid_just_before).
Defined.

(** X13.  For clock values in the ranges of [datetime], two incident
    numbers are equal exactly when the two instants lie in the same
    second: the number identifies the second and nothing finer. *)
Theorem equal_numbers_same_second (t1 t2 : DateTime) :
  Spec.valid_datetime t1 -> Spec.valid_datetime t2 ->
  (make_incident_number t1 = make_incident_number t2
   <-> Spec.same_second t1 t2).
Proof.
  intros Hv1 Hv2. split; [| apply SearchProps.same_second_same_number].
  destruct (valid_fields t1 Hv1) as (Hy1 & Hmo1 & Hd1 & Hh1 & Hmi1 & Hs1).
  destruct (valid_fields t2 Hv2) as (Hy2 & Hmo2 & Hd2 & Hh2 & Hmi2 & Hs2).
  apply fills_spec in Hy1 as [Ly1 _], Hmo1 as [Lmo1 _], Hd1 as [Ld1 _],
        Hh1 as [Lh1 _], Hmi1 as [Lmi1 _].
  apply fills_spec in Hy2 as [Ly2 _], Hmo2 as [Lmo2 _], Hd2 as [Ld2 _],
        Hh2 as [Lh2 _], Hmi2 as [Lmi2 _].
  unfold make_incident_number, strftime_YmdHMS. intros H.
  injection H as H.
  apply WorkflowProps.append_split in H as [Ey H]; [| congruence].
  apply WorkflowProps.append_split in H as [Emo H]; [| congruence].
  apply WorkflowProps.append_split in H as [Ed H]; [| congruence].
  apply WorkflowProps.append_split in H as [Eh H]; [| congruence].
  apply WorkflowProps.append_split in H as [Emi Es]; [| congruence].
  unfold Spec.same_second.
  repeat split; eapply zfill_injective; eassumption.
Qed.

Lemma equal_numbers_same_second_witness :
  Spec.same_second Scenario.same_second_earlier Scenario.just_before.
Proof.
  exact (proj1 (equal_numbers_same_second
                  Scenario.same_second_earlier Scenario.just_before
                  valid_same_second_earlier valid_just_before)
               eq_refl).
Defined.

End ClockProps.

(* ================================================================== *)
(** * Further properties: the nodes and the chat loop *)
(* ================================================================== *)

Module RunProps.

Import PyStr Client WorkflowProps.

(** ** The resolver node *)

Lemma resolver_world (st : AgentState) (w : World) :
  answers (snd (resolver_node st w)) = answers w
  /\ reads (snd (resolver_node st w)) = reads w
  /\ (calls (snd (resolver_node st w))
      = (calls w ++ [Trace.kb_search_call (user_query st)])%list
      \/ calls (snd (resolver_node st w))
         = (calls w ++ [Trace.kb_search_call (user_query st);
                        Trace.incident_search_call (user_query st)])%list).
Proof.
  unfold resolver_node, Trace.kb_search_call, Trace.incident_search_call,
         Trace.search_args.
  run_node. tidy_lists.
  destruct (mcp w _ _) as [r1|e1]; [| auto].
  destruct (mcp w _ _) as [r2|e2]; [| auto].
  destruct (result_of r1); [| auto].
  destruct (result_of r2); [| auto].
  destruct (table_rows _ _ _); [| auto].
  run_node.
  destruct (table_rows _ _ _); [| auto].
  run_node.
  destruct (gemini w _) as [[t|]|e]; run_node; auto.
Qed.

(** X14.  Whatever happens in it, the resolver node reads no answer and
    no clock; it first prints the "Searching" line, then calls
    [search_knowledge_base] with the user's query as typed and limit 5,
    and, unless that call raises, [search_incidents] with the same
    arguments; it makes no other call. *)
Theorem resolver_effects (st : AgentState) (w : World) :
  answers (snd (resolver_node st w)) = answers w
  /\ reads (snd (resolver_node st w)) = reads w
  /\ (exists more,
         console (snd (resolver_node st w))
         = (console w ++ Trace.searching :: more)%list)
  /\ calls (snd (resolver_node st w))
     = match mcp w (List.length (calls w))
                 (Trace.kb_search_call (user_query st)) with
       | Raise _ =>
           (calls w ++ [Trace.kb_search_call (user_query st)])%list
       | Ok _ =>
           (calls w ++ [Trace.kb_search_call (user_query st);
                        Trace.incident_search_call (user_query st)])%list
       end.
Proof.
  unfold resolver_node, Trace.kb_search_call, Trace.incident_search_call,
         Trace.search_args, Trace.searching.
  run_node. tidy_lists.
  destruct (mcp w _ _) as [r1|e1];
    [| repeat split; eexists; reflexivity].
  destruct (mcp w _ _) as [r2|e2];
    [| repeat split; eexists; reflexivity].
  destruct (result_of r1); [| repeat split; eexists; reflexivity].
  destruct (result_of r2); [| repeat split; eexists; reflexivity].
  destruct (table_rows _ _ _); [| repeat split; eexists; reflexivity].
  run_node. tidy_lists.
  destruct (table_rows _ _ _); [| repeat split; eexists; reflexivity].
  run_node. tidy_lists.
  destruct (gemini w _) as [[t|]|e]; run_node; tidy_lists;
    repeat split; eexists; reflexivity.
Qed.

(** X15.  When both searches return but one of the results has no
    structured content, as the result of a failed tool has, the resolver
    node raises [AttributeError] right after the "Searching" line: no
    table is shown and no summary is asked for. *)
Theorem resolver_fails_on_unstructured_result
        (st : AgentState) (w : World) (r1 r2 : CallToolResult) :
  mcp w (List.length (calls w)) (Trace.kb_search_call (user_query st))
  = Ok r1 ->
  mcp w (S (List.length (calls w)))
      (Trace.incident_search_call (user_query st)) = Ok r2 ->
  structuredContent r1 = None \/ structuredContent r2 = None ->
  exists what w',
    resolver_node st w = (Raise (AttributeError what), w')
    /\ console w' = (console w ++ [Trace.searching])%list.
Proof.
  intros H1 H2 Hnone.
  unfold resolver_node. run_node. tidy_lists.
  unfold Trace.kb_search_call, Trace.incident_search_call,
         Trace.search_args in H1, H2.
  rewrite H1, H2. unfold result_of.
  destruct (structuredContent r1) as [d1|].
  - destruct Hnone as [Hn | Hn]; [discriminate |]. rewrite Hn.
    eexists. eexists. split; reflexivity.
  - eexists. eexists. split; reflexivity.
Qed.

Lemma resolver_fails_on_unstructured_result_witness :
  exists what w',
    resolver_node (initial_state "vpn not connecting")
                  (Scenario.world [] Scenario.mcp_tool_errors)
    = (Raise (AttributeError what), w')
    /\ console w' = [Trace.searching].
Proof.
  exact (resolver_fails_on_unstructured_result
           (initial_state "vpn not connecting")
           (Scenario.world [] Scenario.mcp_tool_errors)
           {| isError := true; structuredContent := None |}
           {| isError := true; structuredContent := None |}
           eq_refl eq_refl (or_introl eq_refl)).
Defined.

(** X16.  When the resolver node returns, both searches had returned
    structured content, and the state holds under [kb_results] and
    [incident_results] the value found there under "result" (an empty
    list when that key is missing); the query, the two answers and the
    incident number of the state are as before. *)
Theorem resolver_stores_results
        (st : AgentState) (w : World) (st1 : AgentState) (w1 : World) :
  resolver_node st w = (Ok st1, w1) ->
  user_query st1 = user_query st
  /\ user_feedback st1 = user_feedback st
  /\ user_create_incident st1 = user_create_incident st
  /\ incident_number st1 = incident_number st
  /\ exists r1 r2 d1 d2,
       mcp w (List.length (calls w)) (Trace.kb_search_call (user_query st))
       = Ok r1
       /\ mcp w (S (List.length (calls w)))
              (Trace.incident_search_call (user_query st)) = Ok r2
       /\ structuredContent r1 = Some d1
       /\ structuredContent r2 = Some d2
       /\ kb_results st1 = Some (dict_get d1 "result" (JList []))
       /\ incident_results st1 = Some (dict_get d2 "result" (JList [])).
Proof.
  unfold resolver_node, Trace.kb_search_call, Trace.incident_search_call,
         Trace.search_args.
  run_node. tidy_lists.
  destruct (mcp w _ _) as [r1|?] eqn:H1; [| discriminate].
  destruct (mcp w (S _) _) as [r2|?] eqn:H2; [| discriminate].
  unfold result_of.
  destruct (structuredContent r1) as [d1|] eqn:Hd1; cbv beta iota;
    [| discriminate].
  destruct (structuredContent r2) as [d2|] eqn:Hd2; cbv beta iota;
    [| discriminate].
  destruct (table_rows _ _ (dict_get d1 _ _)); [| discriminate]. run_node.
  destruct (table_rows _ _ (dict_get d2 _ _)); [| discriminate]. run_node.
  destruct (gemini w _) as [[t|]|?]; try discriminate. run_node.
  intros [= <- _]. cbn.
  repeat split. exists r1, r2, d1, d2. auto 10.
Qed.

Lemma resolver_stores_results_witness :
  exists st1 w1,
    resolver_node (initial_state "vpn not connecting")
                  (Scenario.world [] Scenario.mcp_finds) = (Ok st1, w1)
    /\ user_query st1 = "vpn not connecting".
Proof.
  destruct (resolver_node (initial_state "vpn not connecting")
                          (Scenario.world [] Scenario.mcp_finds))
    as [[st1|e] w1] eqn:Hrun.
  - exists st1, w1. split; [reflexivity |].
    exact (proj1 (resolver_stores_results _ _ st1 w1 Hrun)).
  - vm_compute in Hrun. discriminate.
Defined.

(** X17.  A results table has either the single placeholder row, when
    the data is empty, or one row per record with one cell per column,
    and then the data is a non-empty list of dicts; on any other data
    [table_rows] raises. *)
Theorem table_rows_shape (columns : list (string * string))
        (placeholder : list JValue) (data : JValue)
        (rows : list (list JValue)) :
  table_rows columns placeholder data = Ok rows ->
  (falsy data = true /\ rows = [placeholder])
  \/ (exists items,
         data = JList items
         /\ items <> []
         /\ List.length rows = List.length items
         /\ Forall (fun row => List.length row = List.length columns) rows
         /\ Forall (fun item => exists d, item = JDict d) items).
Proof.
  unfold table_rows. destruct (falsy data) eqn:Hf.
  - intros [= <-]. now left.
  - destruct data as [| z | s | items | d]; try discriminate.
    intros Hrows. right. exists items.
    split; [reflexivity |]. split; [now destruct items |].
    clear Hf. revert rows Hrows.
    induction items as [|item items IH]; intros rows Hrows; simpl in Hrows.
    + injection Hrows as <-. repeat split; constructor.
    + destruct item as [| | | | d]; try discriminate.
      destruct (rows_of columns items) as [rest|] eqn:Hrest; [| discriminate].
      injection Hrows as <-.
      destruct (IH rest eq_refl) as (Hlen & Hcols & Hdicts).
      repeat split.
      * simpl. now rewrite Hlen.
      * constructor; [now rewrite length_map | exact Hcols].
      * constructor; [now exists d | exact Hdicts].
Qed.

Lemma table_rows_shape_witness :
  exists rows,
    table_rows Scenario.kb_columns [JStr "-"]
               (JList [JDict (Server.kb_dict Scenario.kb_vpn)]) = Ok rows
    /\ List.length rows = 1%nat.
Proof.
  eexists. split; [reflexivity |].
  destruct (table_rows_shape
              Scenario.kb_columns [JStr "-"]
              (JList [JDict (Server.kb_dict Scenario.kb_vpn)]) _ eq_refl)
    as [[Hf _] | (items & Hd & _ & Hlen & _)].
  - discriminate.
  - injection Hd as <-. exact Hlen.
Defined.

(** ** The confirmation node, and the run as a whole *)

Lemma confirmation_other (st : AgentState) (w : World) (a : string)
      (rest : list string) :
  answers w = a :: rest ->
  String.eqb a "no" = false ->
  confirmation_node st w
  = (Ok (Trace.answered st a "no"),
     Trace.heard w rest [Trace.resolved_question]).
Proof.
  intros Ha Hno. unfold confirmation_node. run_node. rewrite Ha. run_node.
  now rewrite Hno.
Qed.

Lemma confirmation_no (st : AgentState) (w : World) (a2 : string)
      (rest : list string) :
  answers w = "no" :: a2 :: rest ->
  confirmation_node st w
  = (Ok (Trace.answered st "no" a2),
     Trace.heard w rest [Trace.resolved_question; Trace.incident_question]).
Proof.
  intros Ha. unfold confirmation_node. run_node. rewrite Ha. run_node.
  cbn [String.eqb Ascii.eqb Bool.eqb andb]. run_node. tidy_lists.
  reflexivity.
Qed.

Lemma confirmation_short (st : AgentState) (w : World) :
  answers w = [] \/ answers w = ["no"] ->
  exists w', confirmation_node st w = (Raise EOFError, w')
             /\ calls w' = calls w.
Proof.
  intros [Ha | Ha]; unfold confirmation_node; run_node; rewrite Ha; run_node.
  - eexists. split; reflexivity.
  - cbn [String.eqb Ascii.eqb Bool.eqb andb]. run_node.
    eexists. split; reflexivity.
Qed.

(** X18.  After a Resolve step that succeeded, any first answer other
    than "no" ends the run at once: one question is asked and nothing
    else reaches the world; the final response is "Glad it helped! No
    escalation needed."; the state records the answer, with
    [user_create_incident = "no"], and keeps what Resolve stored. *)
Theorem satisfied_user_ends_run
        (st : AgentState) (w : World) (s1 : AgentState) (w1 : World)
        (a : string) (rest : list string) :
  resolver_node st w = (Ok s1, w1) ->
  answers w = a :: rest ->
  a <> "no" ->
  exists st',
    ainvoke st w = (Ok st', Trace.heard w1 rest [Trace.resolved_question])
    /\ final_response st' = Some "Glad it helped! No escalation needed."
    /\ user_feedback st' = Some a
    /\ user_create_incident st' = Some "no"
    /\ incident_number st' = incident_number s1
    /\ user_query st' = user_query s1
    /\ kb_results st' = kb_results s1
    /\ incident_results st' = incident_results s1.
Proof.
  intros Hres Ha Hno.
  assert (Ha1 : answers w1 = a :: rest).
  { pose proof (proj1 (resolver_world st w)) as H.
    rewrite Hres in H. cbn [snd] in H. congruence. }
  apply String.eqb_neq in Hno.
  unfold ainvoke, bind. rewrite Hres.
  rewrite (confirmation_other s1 w1 a rest Ha1 Hno).
  rewrite escalation_resolved
    by (cbn [Trace.answered user_feedback get_eq]; exact Hno).
  eexists. split; [reflexivity |]. repeat split.
Qed.

Lemma satisfied_user_ends_run_witness :
  exists st' w',
    ainvoke (initial_state "vpn not connecting")
            (Scenario.world ["yes"] Scenario.mcp_up)
    = (Ok st', w')
    /\ final_response st' = Some "Glad it helped! No escalation needed."
    /\ user_feedback st' = Some "yes".
Proof.
  destruct (resolver_node (initial_state "vpn not connecting")
                          (Scenario.world ["yes"] Scenario.mcp_up))
    as [[s1|e] w1] eqn:Hres.
  - assert (Hyes : "yes" <> "no") by discriminate.
    destruct (satisfied_user_ends_run _ _ s1 w1 "yes" [] Hres eq_refl Hyes)
      as (st' & Hrun & Hf & Hfb & _).
    exists st', (Trace.heard w1 [] [Trace.resolved_question]).
    split; [exact Hrun |]. split; [exact Hf | exact Hfb].
  - vm_compute in Hres. discriminate.
Defined.

(** X19.  After a Resolve step that succeeded, the answers "no" and then
    anything other than "yes" end the run with the final response "No
    incident created. Issue remains unresolved.": two questions are
    asked, no call is made and no clock read after the searches, and the
    state records both answers and keeps what Resolve stored. *)
Theorem declined_incident_ends_run
        (st : AgentState) (w : World) (s1 : AgentState) (w1 : World)
        (a2 : string) (rest : list string) :
  resolver_node st w = (Ok s1, w1) ->
  answers w = "no" :: a2 :: rest ->
  a2 <> "yes" ->
  exists st',
    ainvoke st w
    = (Ok st',
       Trace.heard w1 rest [Trace.resolved_question; Trace.incident_question])
    /\ final_response st'
       = Some "No incident created. Issue remains unresolved."
    /\ user_feedback st' = Some "no"
    /\ user_create_incident st' = Some a2
    /\ incident_number st' = incident_number s1
    /\ user_query st' = user_query s1
    /\ kb_results st' = kb_results s1
    /\ incident_results st' = incident_results s1.
Proof.
  intros Hres Ha Hyes.
  assert (Ha1 : answers w1 = "no" :: a2 :: rest).
  { pose proof (proj1 (resolver_world st w)) as H.
    rewrite Hres in H. cbn [snd] in H. congruence. }
  apply String.eqb_neq in Hyes.
  unfold ainvoke, bind. rewrite Hres.
  rewrite (confirmation_no s1 w1 a2 rest Ha1).
  rewrite escalation_unresolved;
    [| reflexivity
     | cbn [Trace.answered user_create_incident get_eq]; exact Hyes].
  eexists. split; [reflexivity |]. repeat split.
Qed.

Lemma declined_incident_ends_run_witness :
  exists st' w',
    ainvoke (initial_state "vpn not connecting")
            (Scenario.world ["no"; "no"] Scenario.mcp_up)
    = (Ok st', w')
    /\ final_response st'
       = Some "No incident created. Issue remains unresolved."
    /\ user_create_incident st' = Some "no".
Proof.
  destruct (resolver_node (initial_state "vpn not connecting")
                          (Scenario.world ["no"; "no"] Scenario.mcp_up))
    as [[s1|e] w1] eqn:Hres.
  - assert (Hno : "no" <> "yes") by discriminate.
    destruct (declined_incident_ends_run _ _ s1 w1 "no" [] Hres eq_refl Hno)
      as (st' & Hrun & Hf & _ & Hci & _).
    exists st',
      (Trace.heard w1 [] [Trace.resolved_question; Trace.incident_question]).
    split; [exact Hrun |]. split; [exact Hf | exact Hci].
  - vm_compute in Hres. discriminate.
Defined.

(** X20.  No incident without consent: unless the user's next two
    answers are exactly "no" and "yes", a run, however it ends, makes no
    call besides the two searches; [create_incident] and
    [email_send_mock] are never called. *)
Theorem no_incident_without_consent (st : AgentState) (w : World) :
  ~ (exists rest, answers w = "no" :: "yes" :: rest) ->
  forall c,
    In c (calls (snd (ainvoke st w))) ->
    In c (calls w)
    \/ c = Trace.kb_search_call (user_query st)
    \/ c = Trace.incident_search_call (user_query st).
Proof.
  intros Hconsent.
  assert (Hsearch : forall w',
             calls w' = calls (snd (resolver_node st w)) ->
             forall c, In c (calls w') ->
                       In c (calls w)
                       \/ c = Trace.kb_search_call (user_query st)
                       \/ c = Trace.incident_search_call (user_query st)).
  { intros w' Hw' c Hc. rewrite Hw' in Hc.
    destruct (resolver_world st w) as (_ & _ & [Hcalls | Hcalls]);
      rewrite Hcalls in Hc; apply in_app_or in Hc as [Hc | Hc]; auto;
      simpl in Hc; intuition auto. }
  pose proof (proj1 (resolver_world st w)) as Hans.
  unfold ainvoke, bind.
  destruct (resolver_node st w) as [[s1|e1] w1] eqn:Hres; cbn [snd] in *;
    [| now apply Hsearch].
  destruct (answers w) as [|a [|a2 rest]] eqn:Ha.
  - destruct (confirmation_short s1 w1 (or_introl Hans)) as (w2 & -> & Hc).
    now apply Hsearch.
  - destruct (String.eqb a "no") eqn:Hno.
    + apply String.eqb_eq in Hno. subst a.
      destruct (confirmation_short s1 w1 (or_intror Hans)) as (w2 & -> & Hc).
      now apply Hsearch.
    + rewrite (confirmation_other s1 w1 a [] Hans Hno).
      rewrite escalation_resolved by exact Hno.
      now apply Hsearch.
  - destruct (String.eqb a "no") eqn:Hno.
    + apply String.eqb_eq in Hno. subst a.
      rewrite (confirmation_no s1 w1 a2 rest Hans).
      assert (Hyes : String.eqb a2 "yes" = false).
      { apply String.eqb_neq. intros ->. apply Hconsent. now exists rest. }
      rewrite escalation_unresolved;
        [now apply Hsearch | reflexivity | exact Hyes].
    + rewrite (confirmation_other s1 w1 a (a2 :: rest) Hans Hno).
      rewrite escalation_resolved by exact Hno.
      now apply Hsearch.
Qed.

Lemma no_incident_without_consent_witness :
  Forall (fun c => c = Trace.kb_search_call "vpn not connecting"
                   \/ c = Trace.incident_search_call "vpn not connecting")
         (calls (snd (ainvoke (initial_state "vpn not connecting")
                              (Scenario.world ["yes"] Scenario.mcp_up)))).
Proof.
  apply Forall_forall. intros c Hc.
  destruct (no_incident_without_consent
              (initial_state "vpn not connecting")
              (Scenario.world ["yes"] Scenario.mcp_up)
              (fun H => match H with
                        | ex_intro _ rest E =>
                            eq_ind ("yes" :: @nil string)
                                   (fun l => match l with
                                             | "yes" :: _ => True
                                             | _ => False
                                             end) I _ E
                        end)
              c Hc) as [[] | H]; exact H.
Defined.

(** ** The incident-creating branch *)

(** X21.  When the [create_incident] call raises, that error ends the
    node: the notification is never sent (the creation request is the
    only call made) and no final response is produced. *)
Theorem failed_creation_sends_no_notification
        (st : AgentState) (w : World) (sd d a : string) (rest : list string)
        (e : Exn) :
  get_eq (user_feedback st) "no" = true ->
  get_eq (user_create_incident st) "yes" = true ->
  answers w = sd :: d :: a :: rest ->
  mcp w (List.length (calls w)) (Trace.create_call w sd d a) = Raise e ->
  escalation_node st w
  = (Raise e,
     Trace.after w rest [Trace.create_call w sd d a] Trace.dialogue).
Proof.
  intros Hfb Hci Ha He.
  assert (Hc : get_eq (user_feedback st) "no"
               && get_eq (user_create_incident st) "yes" = true)
    by now rewrite Hfb, Hci.
  now rewrite (escalation_create_closed_form st w sd d a rest Hc Ha), He.
Qed.

Lemma failed_creation_sends_no_notification_witness :
  fst (escalation_node Scenario.unresolved_wants_incident
         (Scenario.world Scenario.incident_details Scenario.mcp_down))
  = Raise (TransportError "All connection attempts failed").
Proof.
  exact (f_equal fst
           (failed_creation_sends_no_notification
              Scenario.unresolved_wants_incident
              (Scenario.world Scenario.incident_details Scenario.mcp_down)
              "VPN down" "Cannot connect since 9am" EmptyString []
              (TransportError "All connection attempts failed")
              eq_refl eq_refl eq_refl eq_refl)).
Defined.

(** X22.  When the incident-creating branch returns, the user's next
    three answers were read as short description, description and
    assignee, and exactly two calls were made: [create_incident] with
    those texts, the number made from the first clock read, and state
    "New"; then [email_send_mock] to support@example.com, whose subject
    names that same number, which is also the one in the state, and
    whose body carries the two descriptions as entered. *)
Theorem notification_names_the_incident
        (st : AgentState) (w : World) (st' : AgentState) (w' : World) :
  get_eq (user_feedback st) "no" = true ->
  get_eq (user_create_incident st) "yes" = true ->
  escalation_node st w = (Ok st', w') ->
  exists sd d a rest,
    answers w = sd :: d :: a :: rest
    /\ answers w' = rest
    /\ incident_number st'
       = Some (make_incident_number (clock w (reads w)))
    /\ calls w'
       = (calls w
          ++ [{| tool := "create_incident";
                 arguments :=
                   [("number",
                     JStr (make_incident_number (clock w (reads w))));
                    ("opened", JStr (isoformat (clock w (S (reads w)))));
                    ("short_description", JStr sd);
                    ("description", JStr d);
                    ("state", JStr "New");
                    ("assigned_to",
                     match a with EmptyString => JNull | _ => JStr a end)] |};
              {| tool := "email_send_mock";
                 arguments :=
                   [("to", JList [JStr "support@example.com"]);
                    ("subject",
                     JStr ("New Incident "
                           ++ make_incident_number (clock w (reads w))));
                    ("body", JStr ("Issue reported: " ++ sd ++ newline
                                   ++ newline ++ d))] |}])%list.
Proof.
  intros Hfb Hci Hrun.
  assert (Hc : get_eq (user_feedback st) "no"
               && get_eq (user_create_incident st) "yes" = true)
    by now rewrite Hfb, Hci.
  destruct (escalation_create_returns st w st' w' Hc Hrun)
    as (sd & d & a & rest & Ha & -> & ->).
  exists sd, d, a, rest.
  split; [exact Ha |]. split; [reflexivity |]. split; [reflexivity |].
  destruct a; reflexivity.
Qed.

Lemma notification_names_the_incident_witness :
  exists st' w',
    escalation_node Scenario.unresolved_wants_incident
                    (Scenario.world Scenario.incident_details Scenario.mcp_up)
    = (Ok st', w')
    /\ incident_number st' = Some "INC20240101120000"
    /\ List.length (calls w') = 2%nat.
Proof.
  destruct (escalation_node
              Scenario.unresolved_wants_incident
              (Scenario.world Scenario.incident_details Scenario.mcp_up))
    as [[st'|e] w'] eqn:Hrun.
  - destruct (notification_names_the_incident
                Scenario.unresolved_wants_incident
                (Scenario.world Scenario.incident_details Scenario.mcp_up)
                st' w' eq_refl eq_refl Hrun)
      as (sd & d & a & rest & _ & _ & Hn & Hcalls).
    exists st', w'. split; [reflexivity |]. split; [exact Hn |].
    rewrite Hcalls. reflexivity.
  - vm_compute in Hrun. discriminate.
Defined.

(** X23.  When the input ends during the incident dialogue, the node
    raises [EOFError] before any call: no incident is created. *)
Theorem input_ends_before_incident (st : AgentState) (w : World) :
  get_eq (user_feedback st) "no" = true ->
  get_eq (user_create_incident st) "yes" = true ->
  (List.length (answers w) < 3)%nat ->
  exists w',
    escalation_node st w = (Raise EOFError, w')
    /\ calls w' = calls w.
Proof.
  intros Hfb Hci Hlen.
  apply escalation_create_short_input; [now rewrite Hfb, Hci | exact Hlen].
Qed.

Lemma input_ends_before_incident_witness :
  exists w',
    escalation_node Scenario.unresolved_wants_incident
                    (Scenario.world ["VPN down"] Scenario.mcp_up)
    = (Raise EOFError, w')
    /\ calls w' = [].
Proof.
  assert (Hlen : (List.length
                    (answers (Scenario.world ["VPN down"] Scenario.mcp_up))
                  < 3)%nat) by (simpl; lia).
  exact (input_ends_before_incident
           Scenario.unresolved_wants_incident
           (Scenario.world ["VPN down"] Scenario.mcp_up)
           eq_refl eq_refl Hlen).
Defined.

(** ** The chat loop *)

(** X24.  "exit" or "quit" in any letter case at the query prompt ends
    the session normally, with the banner, the prompt and "Exiting
    chat..." on the terminal and without a tool call, a clock read or a
    further prompt. *)
Theorem exit_word_ends_session
        (fuel : nat) (w : World) (q : string) (rest : list string) :
  answers w = q :: rest ->
  lower q = "exit" \/ lower q = "quit" ->
  main (S fuel) w
  = Some (Ok tt,
          Trace.heard (Trace.greeted w) rest
                      [Asked "Describe your IT issue";
                       Printed "Exiting chat..."]).
Proof.
  intros Ha Hq.
  assert (Hm : mem (lower q) ["exit"; "quit"] = true)
    by (destruct Hq as [-> | ->]; reflexivity).
  unfold main, console_print, set_console.
  change (loop (S fuel) (Trace.greeted w)
          = Some (Ok tt,
                  Trace.heard (Trace.greeted w) rest
                              [Asked "Describe your IT issue";
                               Printed "Exiting chat..."])).
  cbn [loop]. unfold iteration, Trace.heard, Trace.greeted.
  run_node. rewrite Ha. run_node. rewrite Hm.
  run_node. tidy_lists. reflexivity.
Qed.

Lemma exit_word_ends_session_witness :
  main 1 (Scenario.world ["EXIT"; "vpn not connecting"] Scenario.mcp_down)
  = Some (Ok tt,
          Trace.heard
            (Trace.greeted
               (Scenario.world ["EXIT"; "vpn not connecting"]
                               Scenario.mcp_down))
            ["vpn not connecting"]
            [Asked "Describe your IT issue"; Printed "Exiting chat..."]).
Proof.
  exact (exit_word_ends_session
           0 (Scenario.world ["EXIT"; "vpn not connecting"] Scenario.mcp_down)
           "EXIT" ["vpn not connecting"] eq_refl (or_introl eq_refl)).
Defined.

Lemma ainvoke_sets_final_response
      (st : AgentState) (w : World) (st' : AgentState) (w' : World) :
  ainvoke st w = (Ok st', w') ->
  exists s, final_response st' = Some s /\ s <> EmptyString.
Proof.
  unfold ainvoke, bind. intros Hrun.
  destruct (resolver_node st w) as [[s1|e1] w1]; [| discriminate].
  destruct (confirmation_node s1 w1) as [[s2|e2] w2]; [| discriminate].
  exact (escalation_sets_final_response s2 w2 st' w' Hrun).
Qed.

(** X25.  After a run that completes, [main] shows that run's final
    response in a panel, then the separator, and goes on with the next
    iteration: reading ["final_response"] never fails, and nothing of
    the run's state is carried over. *)
Theorem completed_run_is_shown
        (fuel : nat) (w : World) (q : string) (rest : list string)
        (fs : AgentState) (w' : World) :
  answers w = q :: rest ->
  mem (lower q) ["exit"; "quit"] = false ->
  ainvoke (initial_state q) (Trace.running w rest) = (Ok fs, w') ->
  exists text,
    final_response fs = Some text
    /\ loop (S fuel) w = loop fuel (Trace.shown w' text).
Proof.
  intros Ha Hq Hrun.
  destruct (ainvoke_sets_final_response _ _ _ _ Hrun) as (text & Hf & _).
  exists text. split; [exact Hf |].
  cbn [loop]. unfold iteration.
  run_node. rewrite Ha. run_node. rewrite Hq. run_node. tidy_lists.
  unfold Trace.running in Hrun. rewrite Hrun, Hf. run_node. tidy_lists.
  reflexivity.
Qed.

Lemma completed_run_is_shown_witness :
  exists fs w' text,
    ainvoke (initial_state "vpn not connecting")
            (Trace.running
               (Scenario.world Scenario.two_questions Scenario.mcp_up)
               ["yes"; "printer jam"; "yes"; "exit"])
    = (Ok fs, w')
    /\ final_response fs = Some text
    /\ loop 3 (Scenario.world Scenario.two_questions Scenario.mcp_up)
       = loop 2 (Trace.shown w' text).
Proof.
  destruct (ainvoke (initial_state "vpn not connecting")
              (Trace.running
                 (Scenario.world Scenario.two_questions Scenario.mcp_up)
                 ["yes"; "printer jam"; "yes"; "exit"]))
    as [[fs|e] w'] eqn:Hrun.
  - destruct (completed_run_is_shown
                2 (Scenario.world Scenario.two_questions Scenario.mcp_up)
                "vpn not connecting" ["yes"; "printer jam"; "yes"; "exit"]
                fs w' eq_refl eq_refl Hrun) as (text & Hf & Hloop).
    exists fs, w', text. split; [reflexivity |]. split; assumption.
  - vm_compute in Hrun. discriminate.
Defined.

(** X26.  The session always ends: with [n] answers left, [main] stops
    within [n + 1] iterations, on an exit word or on an error, the end
    of the input being one. *)
Theorem session_always_ends (w : World) :
  exists r, main (S (List.length (answers w))) w = Some r.
Proof.
  unfold main, console_print. apply loop_ends. simpl. lia.
Qed.

End RunProps.
